(** * HeartLink environment diagnostics: a shallow embedding

    The development follows [backend/app/core/env_check.py] (command runner,
    GPU probe, [.env] probe, diagnostic engine) and
    [backend/app/cli/heartlink_cli.py] (the coloured view of a report).

    Python [str] values are sequences of Unicode code points, exceptions are
    values carrying their class, and every call that leaves the interpreter
    (process spawn, module lookup, file system) is answered by an explicit
    [World] and recorded in a trace. *)

From Stdlib Require Import List NArith ZArith String Ascii Bool Lia.
Import ListNotations.


(* ================================================================= *)
(** ** Python strings *)

Module PyStr.

(** A Python [str]: a list of code points. *)
Definition str := list N.

(** Source literals are written as UTF-8 byte strings and decoded. *)
Fixpoint utf8_go (need : nat) (acc : N) (bs : list N) : str :=
  match bs with
  | [] => []
  | b :: r =>
      match need with
      | O =>
          if (b <? 128)%N then b :: utf8_go 0 0%N r
          else if (b <? 224)%N then utf8_go 1 (b - 192)%N r
          else if (b <? 240)%N then utf8_go 2 (b - 224)%N r
          else utf8_go 3 (b - 240)%N r
      | S O => (acc * 64 + (b - 128))%N :: utf8_go 0 0%N r
      | S n => utf8_go n (acc * 64 + (b - 128))%N r
      end
  end.

Definition lit (s : string) : str :=
  utf8_go 0 0%N (map N_of_ascii (list_ascii_of_string s)).

Fixpoint eqb (a b : str) : bool :=
  match a, b with
  | [], [] => true
  | x :: a', y :: b' => (x =? y)%N && eqb a' b'
  | _, _ => false
  end.

Definition LF : N := 10.
Definition CR : N := 13.
Definition SPACE : N := 32.

(** [str.isspace] on one code point (CPython's [_PyUnicode_IsWhitespace]):
    the characters that [str.strip()] removes. *)
Definition isspace (c : N) : bool :=
  ((9 <=? c) && (c <=? 13) || (28 <=? c) && (c <=? 32)
   || (c =? 133) || (c =? 160) || (c =? 5760)
   || (8192 <=? c) && (c <=? 8202)
   || (c =? 8232) || (c =? 8233) || (c =? 8239) || (c =? 8287)
   || (c =? 12288))%N.

(** Line boundaries of [str.splitlines] (CPython's [Py_UNICODE_ISLINEBREAK]):
    LF, VT, FF, CR, FS, GS, RS, NEL, LS, PS. *)
Definition islinebreak (c : N) : bool :=
  ((10 <=? c) && (c <=? 13) || (28 <=? c) && (c <=? 30)
   || (c =? 133) || (c =? 8232) || (c =? 8233))%N.

Fixpoint lstrip (s : str) : str :=
  match s with
  | [] => []
  | c :: r => if isspace c then lstrip r else s
  end.

Definition rstrip (s : str) : str := rev (lstrip (rev s)).

(** [s.strip()] *)
Definition strip (s : str) : str := rstrip (lstrip s).

(** [s.startswith(p)] *)
Fixpoint startswith (p s : str) : bool :=
  match p, s with
  | [], _ => true
  | x :: p', y :: s' => (x =? y)%N && startswith p' s'
  | _ :: _, [] => false
  end.

(** [s.splitlines()]: [cur] is the line being read, in reverse;
    [after_cr] says the previous character was a CR, so that an LF right
    after it belongs to the same boundary. *)
Fixpoint splitlines_go (after_cr : bool) (cur : str) (s : str) : list str :=
  match s with
  | [] => match cur with [] => [] | _ => [rev cur] end
  | c :: r =>
      if after_cr && (c =? LF)%N then splitlines_go false cur r
      else if islinebreak c then rev cur :: splitlines_go (c =? CR)%N [] r
      else splitlines_go false (c :: cur) r
  end.

Definition splitlines (s : str) : list str := splitlines_go false [] s.

(** [s.split(sep, 1)] for a one-character separator: at most one cut, at
    the first occurrence of [sep]. *)
Fixpoint split1_go (sep : N) (pre : str) (s : str) : list str :=
  match s with
  | [] => [rev pre]
  | c :: r => if (c =? sep)%N then [rev pre; r] else split1_go sep (c :: pre) r
  end.

Definition split1 (sep : N) (s : str) : list str := split1_go sep [] s.

(** [s.replace(a, b)] for one-character [a] and [b]. *)
Definition replace_char (a b : N) (s : str) : str :=
  map (fun c => if (c =? a)%N then b else c) s.

(** The format specification [{s:<w}]: left-aligned in a field of at least
    [w] characters, filled with spaces on the right. *)
Definition ljust (w : nat) (s : str) : str :=
  s ++ repeat SPACE (w - List.length s).

(** Right-aligned counterpart ([{s:>w}]), spaces on the left. *)
Definition rjust (w : nat) (s : str) : str :=
  repeat SPACE (w - List.length s) ++ s.

End PyStr.

Import PyStr.

(* ================================================================= *)
(** ** Exceptions *)

Module Exn.

(** The exception classes the modelled calls can raise, all below
    [Exception].  Exit requests ([KeyboardInterrupt], [SystemExit]) are not
    faults of a probe and are left out. *)
Inductive pyclass :=
| Exception
| OSError | FileNotFoundError | PermissionError | NotADirectoryError
| SubprocessError | TimeoutExpired | CalledProcessError
| ValueError | UnicodeError | UnicodeDecodeError
| ImportError | RuntimeError
| LookupError | IndexError | KeyError.

(** The direct base class, as in the Python standard library. *)
Definition base (c : pyclass) : option pyclass :=
  match c with
  | Exception => None
  | OSError => Some Exception
  | FileNotFoundError => Some OSError
  | PermissionError => Some OSError
  | NotADirectoryError => Some OSError
  | SubprocessError => Some Exception
  | TimeoutExpired => Some SubprocessError
  | CalledProcessError => Some SubprocessError
  | ValueError => Some Exception
  | UnicodeError => Some ValueError
  | UnicodeDecodeError => Some UnicodeError
  | ImportError => Some Exception
  | RuntimeError => Some Exception
  | LookupError => Some Exception
  | IndexError => Some LookupError
  | KeyError => Some LookupError
  end.

Definition class_eqb (c d : pyclass) : bool :=
  match c, d with
  | Exception, Exception | OSError, OSError
  | FileNotFoundError, FileNotFoundError | PermissionError, PermissionError
  | NotADirectoryError, NotADirectoryError
  | SubprocessError, SubprocessError | TimeoutExpired, TimeoutExpired
  | CalledProcessError, CalledProcessError | ValueError, ValueError
  | UnicodeError, UnicodeError | UnicodeDecodeError, UnicodeDecodeError
  | ImportError, ImportError | RuntimeError, RuntimeError
  | LookupError, LookupError | IndexError, IndexError
  | KeyError, KeyError => true
  | _, _ => false
  end.

Fixpoint issubclass_upto (n : nat) (c d : pyclass) : bool :=
  class_eqb c d
  || match n with
     | O => false
     | S n' => match base c with
               | Some b => issubclass_upto n' b d
               | None => false
               end
     end.

(** [issubclass(c, d)]; no chain of bases is longer than three steps. *)
Definition issubclass (c d : pyclass) : bool := issubclass_upto 3 c d.

(** An exception object: its class and what [str(exc)] gives. *)
Record exn := { exn_class : pyclass; exn_str : str }.

(** Does [except (c1, ..., cn)] catch [e]? *)
Definition caught_by (classes : list pyclass) (e : exn) : bool :=
  existsb (issubclass (exn_class e)) classes.

End Exn.

Import Exn.

(* ================================================================= *)
(** ** The world outside the interpreter, and the effect monad *)

(** [subprocess.CompletedProcess], in text mode. *)
Record CompletedProcess := {
  returncode : Z;
  stdout : str;
  stderr : str
}.

(** What the call [subprocess.run(cmd, check=False, capture_output=True,
    text=True, timeout=5)] does: it returns a completed process, or it
    raises.  [Exited p] is the call returning [p]: the command ran, exited
    within the timeout, and its output was decoded.  [Missing] is the call
    raising [FileNotFoundError] and [TimedOut] the call raising
    [TimeoutExpired].  Every other exception is [Faulted]: among them
    [PermissionError] (the binary may not be executed), [NotADirectoryError]
    (the binary is looked up behind a path entry that is no directory) and
    [UnicodeDecodeError] (the command exited but its output cannot be
    decoded). *)
Inductive Spawn :=
| Exited (p : CompletedProcess)   (* the call returned [p] *)
| Missing (msg : str)             (* the call raised FileNotFoundError(msg) *)
| TimedOut (msg : str)            (* the call raised TimeoutExpired(msg) *)
| Faulted (e : exn).              (* the call raised [e] *)

Definition Path := str.

(** The outcome of a call: a value, or a raised exception. *)
Inductive res (A : Type) :=
| Ok (a : A)
| Raise (e : exn).

Arguments Ok {A} a.
Arguments Raise {A} e.

Record World := {
  platform_platform : str;              (* platform.platform(); what the
                                           library does to compute it, such as
                                           running uname, is not traced *)
  sys_version : str;                    (* sys.version *)
  sys_executable : str;                 (* sys.executable *)
  PROJECT_ROOT : Path;                  (* config.PROJECT_ROOT *)
  spawn : list str -> Spawn;
  find_spec : str -> res bool;          (* find_spec(name) is not None *)
  import_module : str -> res unit;      (* import name *)
  cuda_is_available : res bool;         (* torch.cuda.is_available() *)
  cuda_get_device_name : Z -> res str;  (* torch.cuda.get_device_name(i) *)
  path_exists : Path -> res bool;       (* Path.exists() *)
  path_read_text : Path -> res str      (* Path.read_text(encoding="utf-8") *)
}.

(** What the program did to the world, in order. *)
Inductive Event :=
| EvSpawn (cmd : list str)      (* subprocess.run(cmd, ...) in [_run_command] *)
| EvFindSpec (name : str)
| EvImport (name : str)
| EvCudaIsAvailable
| EvCudaGetDeviceName (i : Z)
| EvExists (p : Path)
| EvReadText (p : Path).

Definition Trace := list Event.

Module Eff.

(** A computation reads the world, extends the trace, and returns or
    raises. *)
Definition M (A : Type) := World -> Trace -> res A * Trace.

Definition ret {A} (a : A) : M A := fun _ t => (Ok a, t).

Definition bind {A B} (c : M A) (k : A -> M B) : M B :=
  fun w t =>
    match c w t with
    | (Ok a, t') => k a w t'
    | (Raise e, t') => (Raise e, t')
    end.

Definition raise {A} (e : exn) : M A := fun _ t => (Raise e, t).

(** [try: body  except classes as exc: handler exc] *)
Definition try_except {A} (body : M A) (classes : list pyclass)
           (handler : exn -> M A) : M A :=
  fun w t =>
    match body w t with
    | (Ok a, t') => (Ok a, t')
    | (Raise e, t') =>
        if caught_by classes e then handler e w t' else (Raise e, t')
    end.

(** A call answered by the world and recorded in the trace. *)
Definition call {A} (ev : Event) (ask : World -> res A) : M A :=
  fun w t => (ask w, t ++ [ev]).

(** Reading interpreter state leaves no trace. *)
Definition read {A} (ask : World -> A) : M A := fun w t => (Ok (ask w), t).

Definition lift {A} (r : res A) : M A := fun _ t => (r, t).

End Eff.

Import Eff.

Notation "x <- c ;; k" := (bind c (fun x => k))
  (at level 61, c at next level, right associativity).
Notation "' pat <- c ;; k" := (bind c (fun x => match x with pat => k end))
  (at level 61, pat pattern, c at next level, right associativity).

(* ================================================================= *)
(** ** Dictionaries and builtins *)

(** An insertion-ordered [dict] with [str] keys. *)
Definition Dict (V : Type) := list (str * V).

(** [d.get(k)] *)
Fixpoint dict_get {V} (d : Dict V) (k : str) : option V :=
  match d with
  | [] => None
  | (k', v) :: r => if PyStr.eqb k' k then Some v else dict_get r k
  end.

(** [d.get(k, default)] *)
Definition dict_get_default {V} (d : Dict V) (k : str) (default : V) : V :=
  match dict_get d k with Some v => v | None => default end.

(** [d[k]], a [KeyError] when [k] is absent. *)
Definition dict_getitem {V} (d : Dict V) (k : str) : res V :=
  match dict_get d k with
  | Some v => Ok v
  | None => Raise {| exn_class := KeyError; exn_str := k |}
  end.

(** [d[k] = v]: an existing key keeps its position, a new one goes last. *)
Fixpoint dict_set {V} (k : str) (v : V) (d : Dict V) : Dict V :=
  match d with
  | [] => [(k, v)]
  | (k', v') :: r =>
      if PyStr.eqb k' k then (k', v) :: r else (k', v') :: dict_set k v r
  end.

(** [max(l, key=key)] keeps the first of the maximal elements: the running
    maximum is replaced only by a strictly greater key. *)
Fixpoint max_go {A} (key : A -> Z) (best : A) (l : list A) : A :=
  match l with
  | [] => best
  | x :: r => if (key best <? key x)%Z then max_go key x r else max_go key best r
  end.

Definition py_max {A} (key : A -> Z) (l : list A) : res A :=
  match l with
  | [] => Raise {| exn_class := ValueError;
                   exn_str := lit "max() arg is an empty sequence" |}
  | x :: r => Ok (max_go key x r)
  end.

(** [a or b] on strings: [a] when it is non-empty. *)
Definition str_or (a b : str) : str :=
  match a with [] => b | _ => a end.

(** Truth value of a string. *)
Definition truthy (s : str) : bool :=
  match s with [] => false | _ => true end.

(* ================================================================= *)
(** ** [core/config.py] *)

Record HeartLinkConfig := {
  env_path : Path;
  data_dir : Path
}.

(** [root / name] for a relative [name]: one separator between the two,
    none after a root that ends in one (the file system root) and none after
    the empty path. *)
Definition path_join (root : Path) (name : str) : Path :=
  match rev root with
  | [] => name
  | c :: _ => if (c =? 47)%N then root ++ name else root ++ lit "/" ++ name
  end.

(** [load_default_config], config.py lines 14-18. *)
Definition load_default_config : M HeartLinkConfig :=
  root <- read PROJECT_ROOT ;;
  ret {| env_path := path_join root (lit ".env");
         data_dir := path_join root (lit "data") |}.

(* ================================================================= *)
(** ** [core/env_check.py] *)

(** [StatusDetail]: the two-key dictionary every probe builds. *)
Record StatusDetail := {
  status : str;
  detail : str
}.

Definition DiagnosticResult := Dict StatusDetail.

Definition OK : str := lit "OK".
Definition WARN : str := lit "WARN".
Definition FAIL : str := lit "FAIL".

(** env_check.py line 14. *)
Definition STATUS_PRIORITY : Dict Z := [(OK, 0%Z); (WARN, 1%Z); (FAIL, 2%Z)].

(** The call of [subprocess.run] at lines 20-26: the world says what the
    spawn does, and the two named outcomes raise the exceptions Python
    raises for them. *)
Definition subprocess_run (command : list str) : M CompletedProcess :=
  call (EvSpawn command)
       (fun w => match spawn w command with
                 | Exited p => Ok p
                 | Missing msg =>
                     Raise {| exn_class := FileNotFoundError; exn_str := msg |}
                 | TimedOut msg =>
                     Raise {| exn_class := TimeoutExpired; exn_str := msg |}
                 | Faulted e => Raise e
                 end).

(** [_run_command], lines 17-31. *)
Definition _run_command (command : list str) : M (bool * str) :=
  try_except
    (completed <- subprocess_run command ;;
     let success := (returncode completed =? 0)%Z in
     let output := str_or (strip (stdout completed)) (strip (stderr completed)) in
     ret (success, output))
    [FileNotFoundError; SubprocessError]
    (fun exc => ret (false, exn_str exc)).

Definition TORCH : str := lit "torch".
Definition NVIDIA_SMI : list str := [lit "nvidia-smi"].

(** [_detect_gpu_status], lines 34-59.  Every path of the [if] branch
    returns, so the [nvidia-smi] part runs only when [torch_spec] is
    [None]. *)
Definition _detect_gpu_status : M StatusDetail :=
  torch_spec <- call (EvFindSpec TORCH) (fun w => find_spec w TORCH) ;;
  if (torch_spec : bool) then
    try_except
      (_ <- call (EvImport TORCH) (fun w => import_module w TORCH) ;;
       available <- call EvCudaIsAvailable cuda_is_available ;;
       if (available : bool) then
         device_name <- call (EvCudaGetDeviceName 0)
                             (fun w => cuda_get_device_name w 0%Z) ;;
         ret {| status := OK; detail := lit "检测到 GPU: " ++ device_name |}
       else
         ret {| status := WARN;
                detail := lit "检测到 PyTorch 但 CUDA 不可用，请检查驱动或 CUDA 版本。" |})
      [Exception]
      (fun exc =>
         ret {| status := WARN;
                detail := lit "PyTorch 存在但无法获取 GPU 信息: " ++ exn_str exc |})
  else
    '(success, output) <- _run_command NVIDIA_SMI ;;
    if (success : bool) then
      ret {| status := OK; detail := lit "nvidia-smi 输出: " ++ output |}
    else
      ret {| status := WARN;
             detail := lit "未检测到 PyTorch 或 nvidia-smi，如需 GPU 请安装相关驱动。" |}.

Definition KEY_PREFIX : str := lit "OPENAI_API_KEY=".
Definition EQUALS : N := 61.

(** [xs[i]], an [IndexError] when out of range. *)
Definition list_getitem {A} (xs : list A) (i : nat) : res A :=
  match nth_error xs i with
  | Some x => Ok x
  | None => Raise {| exn_class := IndexError;
                     exn_str := lit "list index out of range" |}
  end.

(** The [for line in content.splitlines()] loop of [_check_env_file]; the
    result is the final [has_key].  The loop is left at the first line whose
    stripped text starts with the prefix. *)
Fixpoint scan_env_lines (lines : list str) : res bool :=
  match lines with
  | [] => Ok false
  | line :: rest =>
      let stripped := strip line in
      if startswith KEY_PREFIX stripped then
        match list_getitem (split1 EQUALS stripped) 1 with
        | Ok value => Ok (truthy value)
        | Raise e => Raise e
        end
      else scan_env_lines rest
  end.

(** [_check_env_file], lines 62-90.  A [return] inside an [except] clause
    leaves the function: the [try] statement either hands its value on
    ([inr]) or returns early ([inl]). *)
Definition _check_env_file (config : HeartLinkConfig) : M StatusDetail :=
  let env_path := env_path config in
  present <- call (EvExists env_path) (fun w => path_exists w env_path) ;;
  if negb present then
    ret {| status := WARN;
           detail := lit "未找到 .env 文件，请复制 .env.example 并填写密钥。" |}
  else
    r <- try_except
           (content <- call (EvReadText env_path)
                            (fun w => path_read_text w env_path) ;;
            ret (inr content))
           [OSError]
           (fun exc =>
              ret (inl {| status := WARN;
                          detail := lit "读取 .env 文件失败: " ++ exn_str exc |})) ;;
    match r with
    | inl early => ret early
    | inr content =>
        has_key <- lift (scan_env_lines (splitlines content)) ;;
        if (has_key : bool) then
          ret {| status := OK; detail := lit "已检测到 OPENAI_API_KEY 字段。" |}
        else
          ret {| status := WARN;
                 detail := lit "OPENAI_API_KEY 字段缺失或未填写，请更新 .env。" |}
    end.

Definition summary_messages : Dict str :=
  [(OK, lit "所有检测通过，环境准备就绪。");
   (WARN, lit "部分检测存在警告，请根据提示完善环境。");
   (FAIL, lit "检测存在失败项，请优先解决关键问题。")].

Definition unknown_message : str := lit "部分检测存在未知状态，请人工确认。".

(** [key=lambda status: STATUS_PRIORITY.get(status, 2)] *)
Definition priority (status : str) : Z := dict_get_default STATUS_PRIORITY status 2%Z.

(** Lines 148-155: the roll-up over [status_records] and the summary record. *)
Definition summarize (status_records : list str) : res StatusDetail :=
  match py_max priority status_records with
  | Ok highest_status =>
      let summary_detail :=
        dict_get_default summary_messages highest_status unknown_message in
      Ok {| status := highest_status; detail := summary_detail |}
  | Raise e => Raise e
  end.

(** [run_env_diagnostics], lines 93-157: [results] and [status_records] are
    threaded through the probes in source order. *)
Definition run_env_diagnostics : M DiagnosticResult :=
  config <- load_default_config ;;
  let results : DiagnosticResult := [] in
  let status_records : list str := [] in

  system_detail <- read platform_platform ;;
  let results := dict_set (lit "system") {| status := OK; detail := system_detail |} results in
  let status_records := status_records ++ [OK] in

  version <- read sys_version ;;
  let python_version := replace_char LF SPACE version in
  let results := dict_set (lit "python") {| status := OK; detail := python_version |} results in
  let status_records := status_records ++ [OK] in

  '(node_success, node_output) <- _run_command [lit "node"; lit "--version"] ;;
  let '(results, status_records) :=
    if (node_success : bool) then
      (dict_set (lit "node") {| status := OK; detail := node_output |} results,
       status_records ++ [OK])
    else
      (dict_set (lit "node")
         {| status := WARN;
            detail := lit "未检测到 Node.js，请安装 LTS 版本以支持前端。" |} results,
       status_records ++ [WARN]) in

  '(npm_success, npm_output) <- _run_command [lit "npm"; lit "--version"] ;;
  let '(results, status_records) :=
    if (npm_success : bool) then
      (dict_set (lit "npm") {| status := OK; detail := npm_output |} results,
       status_records ++ [OK])
    else
      (dict_set (lit "npm")
         {| status := WARN; detail := lit "未检测到 npm，请随 Node.js 一并安装。" |} results,
       status_records ++ [WARN]) in

  executable <- read sys_executable ;;
  '(pip_success, pip_output) <-
     _run_command [executable; lit "-m"; lit "pip"; lit "--version"] ;;
  let '(results, status_records) :=
    if (pip_success : bool) then
      (dict_set (lit "pip") {| status := OK; detail := pip_output |} results,
       status_records ++ [OK])
    else
      (dict_set (lit "pip")
         {| status := FAIL;
            detail := lit "未检测到 pip，请使用官方安装程序修复 Python。" |} results,
       status_records ++ [FAIL]) in

  gpu_result <- _detect_gpu_status ;;
  let results := dict_set (lit "gpu") gpu_result results in
  let status_records := status_records ++ [status gpu_result] in

  env_result <- _check_env_file config ;;
  let results := dict_set (lit "env_file") env_result results in
  let status_records := status_records ++ [status env_result] in

  summary <- lift (summarize status_records) ;;
  let results := dict_set (lit "summary") summary results in
  ret results.

(* ================================================================= *)
(** ** [cli/heartlink_cli.py] *)

Definition ESC : N := 27.

(** heartlink_cli.py lines 15-20. *)
Definition COLOR_MAP : Dict str :=
  [(lit "OK", ESC :: lit "[92m");
   (lit "WARN", ESC :: lit "[93m");
   (lit "FAIL", ESC :: lit "[91m");
   (lit "RESET", ESC :: lit "[0m")].

(** The text of the f-string
    [{color}{name:<10} [{status}] {detail['detail']}{reset}]. *)
Definition display_line (color reset name : str) (d : StatusDetail) : str :=
  color ++ ljust 10 name ++ lit " [" ++ status d ++ lit "] " ++ detail d ++ reset.

(** [display_results], lines 60-66: the result is what is handed to [print],
    one text per call, in order. *)
Fixpoint display_results (results : DiagnosticResult) : res (list str) :=
  match results with
  | [] => Ok []
  | (name, d) :: rest =>
      match dict_getitem COLOR_MAP (lit "RESET") with
      | Raise e => Raise e
      | Ok default =>
          let color := dict_get_default COLOR_MAP (status d) default in
          match dict_getitem COLOR_MAP (lit "RESET") with
          | Raise e => Raise e
          | Ok reset =>
              match display_results rest with
              | Ok printed => Ok (display_line color reset name d :: printed)
              | Raise e => Raise e
              end
          end
      end
  end.

(* ================================================================= *)
(** ** Observations, the specification's vocabulary, and sample worlds *)

(** What a computation returns and what it does, from a given trace. *)
Definition result {A} (c : M A) (w : World) (t : Trace) : res A := fst (c w t).
Definition events {A} (c : M A) (w : World) (t : Trace) : Trace := snd (c w t).

Definition is_spawn (ev : Event) : bool :=
  match ev with EvSpawn _ => true | _ => false end.

(** The exception [subprocess.run] raises, if any. *)
Definition spawn_fault (s : Spawn) : option exn :=
  match s with
  | Exited _ => None
  | Missing msg => Some {| exn_class := FileNotFoundError; exn_str := msg |}
  | TimedOut msg => Some {| exn_class := TimeoutExpired; exn_str := msg |}
  | Faulted e => Some e
  end.

(** The specification's [StatusKind] with its severity order
    OK < WARN < FAIL. *)
Inductive StatusKind := KOk | KWarn | KFail.

Definition severity (k : StatusKind) : nat :=
  match k with KOk => 0 | KWarn => 1 | KFail => 2 end.

Definition kind_name (k : StatusKind) : str :=
  match k with KOk => OK | KWarn => WARN | KFail => FAIL end.

Definition kind_of (s : str) : option StatusKind :=
  if PyStr.eqb s OK then Some KOk
  else if PyStr.eqb s WARN then Some KWarn
  else if PyStr.eqb s FAIL then Some KFail
  else None.

Definition kind_max (a b : StatusKind) : StatusKind :=
  if severity a <? severity b then b else a.

(** The maximum by severity of a list of statuses, as the specification
    words it; defined on non-empty lists of recognised statuses. *)
Fixpoint spec_rollup (statuses : list str) : option StatusKind :=
  match statuses with
  | [] => None
  | s :: rest =>
      match kind_of s, rest with
      | None, _ => None
      | Some k, [] => Some k
      | Some k, _ :: _ =>
          match spec_rollup rest with
          | Some m => Some (kind_max k m)
          | None => None
          end
      end
  end.

(** The fixed record names, in report order. *)
Definition report_names : list str :=
  [lit "system"; lit "python"; lit "node"; lit "npm"; lit "pip"; lit "gpu";
   lit "env_file"; lit "summary"].

Definition statuses_of (records : DiagnosticResult) : list str :=
  map (fun kv => status (snd kv)) records.

(** The substring after the first occurrence of [sep] (empty when there is
    none), as the specification words the value of a key line. *)
Fixpoint after_first (sep : N) (s : str) : str :=
  match s with
  | [] => []
  | c :: r => if (c =? sep)%N then r else after_first sep r
  end.

(** The specification's reading of the secrets-file scan: the first line
    that, trimmed, starts with the key prefix decides. *)
Definition spec_env_status (content : str) : str :=
  match find (fun l => startswith KEY_PREFIX (strip l)) (splitlines content) with
  | Some l => if truthy (after_first EQUALS (strip l)) then OK else WARN
  | None => WARN
  end.

(** The colour the specification assigns to a status. *)
Definition GREEN : str := ESC :: lit "[92m".
Definition YELLOW : str := ESC :: lit "[93m".
Definition RED : str := ESC :: lit "[91m".
Definition RESET : str := ESC :: lit "[0m".

Definition spec_color (s : str) : str :=
  match kind_of s with
  | Some KOk => GREEN
  | Some KWarn => YELLOW
  | Some KFail => RED
  | None => RESET
  end.

(** The command ran and exited with status zero. *)
Definition command_succeeds (w : World) (cmd : list str) : bool :=
  match spawn w cmd with
  | Exited p => (returncode p =? 0)%Z
  | _ => false
  end.

Definition NODE_VERSION : list str := [lit "node"; lit "--version"].
Definition NPM_VERSION : list str := [lit "npm"; lit "--version"].
Definition PIP_VERSION (w : World) : list str :=
  [sys_executable w; lit "-m"; lit "pip"; lit "--version"].

(** The faults each probe catches at its own boundary. *)
Definition command_handled (w : World) (cmd : list str) : bool :=
  match spawn_fault (spawn w cmd) with
  | Some e => caught_by [FileNotFoundError; SubprocessError] e
  | None => true
  end.

Definition is_ok {A} (r : res A) : bool :=
  match r with Ok _ => true | Raise _ => false end.

(** No call of the run raises outside the classes its probe catches: the
    three version commands and [nvidia-smi] raise at most
    [FileNotFoundError] or [SubprocessError], the module lookup and the
    existence test answer, and reading [.env] raises at most [OSError]. *)
Definition faults_handled (w : World) : bool :=
  command_handled w NODE_VERSION
  && command_handled w NPM_VERSION
  && command_handled w (PIP_VERSION w)
  && command_handled w NVIDIA_SMI
  && is_ok (find_spec w TORCH)
  && is_ok (path_exists w (path_join (PROJECT_ROOT w) (lit ".env")))
  && match path_read_text w (path_join (PROJECT_ROOT w) (lit ".env")) with
     | Ok _ => true
     | Raise e => caught_by [OSError] e
     end.

Definition exited (rc : Z) (out : str) : Spawn :=
  Exited {| returncode := rc; stdout := out; stderr := [] |}.

(** A host with node, npm and pip, without torch, [nvidia-smi] or [.env]. *)
Definition world_plain : World := {|
  platform_platform := lit "Linux-6.1-x86_64";
  sys_version := lit "3.11.4 (main)" ++ [LF] ++ lit "[GCC 12.2.0]";
  sys_executable := lit "/usr/bin/python3";
  PROJECT_ROOT := lit "/srv/heartlink";
  spawn := fun cmd =>
    if list_eq_dec N.eq_dec (hd [] cmd) (lit "nvidia-smi")
    then Missing (lit "[Errno 2] No such file or directory: 'nvidia-smi'")
    else exited 0 (lit "v1.0" ++ [LF]);
  find_spec := fun _ => Ok false;
  import_module := fun _ => Ok tt;
  cuda_is_available := Ok false;
  cuda_get_device_name := fun _ => Ok [];
  path_exists := fun _ => Ok false;
  path_read_text := fun _ =>
    Raise {| exn_class := FileNotFoundError; exn_str := lit "[Errno 2]" |}
|}.

(** The same host, where [node] is on the path but may not be executed. *)
Definition world_node_denied : World := {|
  platform_platform := platform_platform world_plain;
  sys_version := sys_version world_plain;
  sys_executable := sys_executable world_plain;
  PROJECT_ROOT := PROJECT_ROOT world_plain;
  spawn := fun cmd =>
    if list_eq_dec N.eq_dec (hd [] cmd) (lit "node")
    then Faulted {| exn_class := PermissionError;
                    exn_str := lit "[Errno 13] Permission denied: 'node'" |}
    else spawn world_plain cmd;
  find_spec := find_spec world_plain;
  import_module := import_module world_plain;
  cuda_is_available := cuda_is_available world_plain;
  cuda_get_device_name := cuda_get_device_name world_plain;
  path_exists := path_exists world_plain;
  path_read_text := path_read_text world_plain
|}.

(** A host whose [.env] holds [content]. *)
Definition world_with_env (content : res str) : World := {|
  platform_platform := platform_platform world_plain;
  sys_version := sys_version world_plain;
  sys_executable := sys_executable world_plain;
  PROJECT_ROOT := PROJECT_ROOT world_plain;
  spawn := spawn world_plain;
  find_spec := find_spec world_plain;
  import_module := import_module world_plain;
  cuda_is_available := cuda_is_available world_plain;
  cuda_get_device_name := cuda_get_device_name world_plain;
  path_exists := fun _ => Ok true;
  path_read_text := fun _ => content
|}.

(** A host with torch; [avail] and [name] answer the CUDA queries. *)
Definition world_torch (avail : res bool) (name : res str) : World := {|
  platform_platform := platform_platform world_plain;
  sys_version := sys_version world_plain;
  sys_executable := sys_executable world_plain;
  PROJECT_ROOT := PROJECT_ROOT world_plain;
  spawn := fun cmd => exited 0 (lit "ok");
  find_spec := fun _ => Ok true;
  import_module := import_module world_plain;
  cuda_is_available := avail;
  cuda_get_device_name := fun _ => name;
  path_exists := path_exists world_plain;
  path_read_text := path_read_text world_plain
|}.

(** A host where [pip] is broken and everything else is as in
    [world_plain]. *)
Definition world_no_pip : World := {|
  platform_platform := platform_platform world_plain;
  sys_version := sys_version world_plain;
  sys_executable := sys_executable world_plain;
  PROJECT_ROOT := PROJECT_ROOT world_plain;
  spawn := fun cmd =>
    if list_eq_dec N.eq_dec (hd [] cmd) (lit "/usr/bin/python3")
    then exited 1 (lit "No module named pip")
    else spawn world_plain cmd;
  find_spec := find_spec world_plain;
  import_module := import_module world_plain;
  cuda_is_available := cuda_is_available world_plain;
  cuda_get_device_name := cuda_get_device_name world_plain;
  path_exists := path_exists world_plain;
  path_read_text := path_read_text world_plain
|}.

Definition the_config : HeartLinkConfig :=
  {| env_path := lit "/srv/heartlink/.env"; data_dir := lit "/srv/heartlink/data" |}.

(** A host whose [.env] exists but is not valid UTF-8. *)
Definition undecodable_env : exn :=
  {| exn_class := UnicodeDecodeError;
     exn_str := lit "'utf-8' codec can't decode byte 0xff in position 0" |}.

Definition world_bad_env : World := world_with_env (Raise undecodable_env).

(** The first fault raised while torch is imported and queried, if any. *)
Definition torch_query_fault (w : World) : option exn :=
  match import_module w TORCH with
  | Raise e => Some e
  | Ok _ =>
      match cuda_is_available w with
      | Raise e => Some e
      | Ok false => None
      | Ok true =>
          match cuda_get_device_name w 0%Z with
          | Raise e => Some e
          | Ok _ => None
          end
      end
  end.

(** The report of the plain host, evaluated once. *)
Definition report_plain : DiagnosticResult :=
  Eval vm_compute in
    match result run_env_diagnostics world_plain [] with
    | Ok r => r
    | Raise _ => []
    end.

Definition report_no_pip : DiagnosticResult :=
  Eval vm_compute in
    match result run_env_diagnostics world_no_pip [] with
    | Ok r => r
    | Raise _ => []
    end.

(* ================================================================= *)
(** ** [cli/heartlink_cli.py]: report text, persistence, menu *)

(** [sep.join(parts)] *)
Fixpoint join (sep : str) (parts : list str) : str :=
  match parts with
  | [] => []
  | p :: rest =>
      match rest with
      | [] => p
      | _ :: _ => p ++ sep ++ join sep rest
      end
  end.

(** What the command line program sees beyond the engine's world. *)
Record Host := {
  world : World;
  CLI_PROJECT_ROOT : Path;                (* heartlink_cli.PROJECT_ROOT *)
  now_text : str;                         (* datetime.now().strftime("%Y-%m-%d %H:%M:%S") *)
  path_mkdir : Path -> res unit;          (* Path.mkdir(parents=True, exist_ok=True) *)
  path_write_text : Path -> str -> res unit  (* Path.write_text(text, encoding="utf-8") *)
}.

(** What the program does, in order: the engine's events, the texts handed
    to [print], the prompts of [input], and the writes to the file system. *)
Inductive Action :=
| Probe (ev : Event)
| Print (text : str)
| Prompt (text : str)
| Mkdir (p : Path)
| WriteText (p : Path) (text : str).

(** How a command line function ends: it returns, a fault leaves it, or
    [input()] meets the end of the input ([EOFError], which nothing in the
    program catches). *)
Inductive Outcome (A : Type) :=
| Done (a : A)
| Failed (e : exn)
| EndOfInput.

Arguments Done {A} a.
Arguments Failed {A} e.
Arguments EndOfInput {A}.

Module Cli.

Definition C (A : Type) := Host -> list Action -> Outcome A * list Action.

Definition cret {A} (a : A) : C A := fun _ log => (Done a, log).

Definition cbind {A B} (c : C A) (k : A -> C B) : C B :=
  fun h log =>
    match c h log with
    | (Done a, log') => k a h log'
    | (Failed e, log') => (Failed e, log')
    | (EndOfInput, log') => (EndOfInput, log')
    end.

(** An action whose outcome the host decides. *)
Definition act {A} (a : Host -> Action) (ask : Host -> res A) : C A :=
  fun h log =>
    match ask h with
    | Ok x => (Done x, log ++ [a h])
    | Raise e => (Failed e, log ++ [a h])
    end.

(** [print(text)] on a terminal that takes the text.  A [print] that raises
    (a stdout that cannot encode the text) is not modelled: what is stated
    about prints holds of the runs in which they succeed. *)
Definition print (text : str) : C unit :=
  fun _ log => (Done tt, log ++ [Print text]).

(** An engine computation, started on a fresh trace; its events join the
    log. *)
Definition engine {A} (c : M A) : C A :=
  fun h log =>
    match c (world h) [] with
    | (Ok a, t) => (Done a, log ++ map Probe t)
    | (Raise e, t) => (Failed e, log ++ map Probe t)
    end.

End Cli.

Import Cli.

Notation "x <~ c ;; k" := (cbind c (fun x => k))
  (at level 61, c at next level, right associativity).

Definition MENU_BANNER : str :=
  lit "===============================" ++ [LF]
  ++ lit "    HeartLink 主程序入口" ++ [LF]
  ++ lit "===============================" ++ [LF]
  ++ lit "1. 环境体检（系统与依赖）" ++ [LF]
  ++ lit "2. 退出" ++ [LF]
  ++ lit "===============================".

(** [ensure_data_directory], lines 43-47. *)
Definition ensure_data_directory : C Path :=
  fun h =>
    let data_dir := path_join (CLI_PROJECT_ROOT h) (lit "data") in
    (_ <~ act (fun _ => Mkdir data_dir) (fun h => path_mkdir h data_dir) ;;
     cret data_dir) h.

Definition REPORT_TITLE : str := lit "HeartLink 环境体检报告".
Definition REPORT_RULE : str := lit "----------------------------------------".

(** The line [f"{name}: [{detail['status']}] {detail['detail']}"]. *)
Definition report_line (name : str) (d : StatusDetail) : str :=
  name ++ lit ": [" ++ status d ++ lit "] " ++ detail d.

(** The list [lines] of [format_report_lines] once the loop is done. *)
Definition report_lines (timestamp : str) (results : DiagnosticResult) : list str :=
  [REPORT_TITLE; lit "生成时间: " ++ timestamp; REPORT_RULE]
  ++ map (fun kv => report_line (fst kv) (snd kv)) results.

(** [format_report_lines], lines 50-57. *)
Definition format_report_lines (results : DiagnosticResult) : C str :=
  fun h => cret (join [LF] (report_lines (now_text h) results)) h.

Fixpoint print_all (texts : list str) : C unit :=
  match texts with
  | [] => cret tt
  | text :: rest => _ <~ print text ;; print_all rest
  end.

(** [display_results] at the console: one [print] per record. *)
Definition display_results_io (results : DiagnosticResult) : C unit :=
  fun h log =>
    match display_results results with
    | Ok printed => print_all printed h log
    | Raise e => (Failed e, log)
    end.

Definition REPORT_SAVED : str := lit "报告已保存至: ".

(** [run_environment_check], lines 69-77. *)
Definition run_environment_check : C unit :=
  fun h =>
    (_ <~ ensure_data_directory ;;
     results <~ engine run_env_diagnostics ;;
     _ <~ display_results_io results ;;
     report_text <~ format_report_lines results ;;
     let report_path :=
       path_join (path_join (CLI_PROJECT_ROOT h) (lit "data")) (lit "env_report.txt") in
     _ <~ act (fun _ => WriteText report_path (report_text ++ [LF]))
              (fun h => path_write_text h report_path (report_text ++ [LF])) ;;
     print (REPORT_SAVED ++ report_path)) h.

Definition MENU_PROMPT : str := lit "请选择操作：".
Definition FAREWELL : str := lit "感谢使用 HeartLink，欢迎下次再来！".
Definition INVALID_CHOICE : str := lit "无效选项，请输入 1 或 2。".

(** [interactive_menu], lines 80-91.  [stdin] holds the lines still to be
    typed; when none is left [input()] raises [EOFError]. *)
Fixpoint interactive_menu (stdin : list str) : C unit :=
  _ <~ print MENU_BANNER ;;
  match stdin with
  | [] => fun _ log => (EndOfInput, log ++ [Prompt MENU_PROMPT])
  | line :: rest =>
      fun h log =>
        let choice := strip line in
        (if PyStr.eqb choice (lit "1") then
           _ <~ run_environment_check ;; interactive_menu rest
         else if PyStr.eqb choice (lit "2") then
           print FAREWELL
         else
           _ <~ print INVALID_CHOICE ;; interactive_menu rest)
          h (log ++ [Prompt MENU_PROMPT])
  end.

(** [main], lines 94-100, after [parse_args]: [auto_check] is the flag
    [--auto-check]. *)
Definition main (auto_check : bool) (stdin : list str) : C unit :=
  if auto_check then run_environment_check else interactive_menu stdin.

(** ** Vocabulary for the command line *)

Definition outcome {A} (c : C A) (h : Host) (log : list Action) : Outcome A :=
  fst (c h log).
Definition actions {A} (c : C A) (h : Host) (log : list Action) : list Action :=
  snd (c h log).

Definition is_print (a : Action) : bool :=
  match a with Print _ => true | _ => false end.
Definition is_prompt (a : Action) : bool :=
  match a with Prompt _ => true | _ => false end.
Definition is_mkdir (a : Action) : bool :=
  match a with Mkdir _ => true | _ => false end.
Definition is_write (a : Action) : bool :=
  match a with WriteText _ _ => true | _ => false end.
Definition is_probe (a : Action) : bool :=
  match a with Probe _ => true | _ => false end.

(** Prints and prompts only: nothing outside the terminal. *)
Definition is_terminal (a : Action) : bool := is_print a || is_prompt a.

Definition no_linebreak (s : str) : bool := forallb (fun c => negb (islinebreak c)) s.

Definition chooses (n : string) (line : str) : bool := PyStr.eqb (strip line) (lit n).

(** The byte order mark U+FEFF, which [utf-8] decoding keeps. *)
Definition BOM : N := 65279.

(** A host on [world_plain] whose file system accepts everything. *)
Definition host_plain : Host := {|
  world := world_plain;
  CLI_PROJECT_ROOT := lit "/srv/heartlink";
  now_text := lit "2024-05-01 12:00:00";
  path_mkdir := fun _ => Ok tt;
  path_write_text := fun _ _ => Ok tt
|}.

(** The same host with a read-only project directory. *)
Definition host_readonly : Host := {|
  world := world_plain;
  CLI_PROJECT_ROOT := lit "/srv/heartlink";
  now_text := lit "2024-05-01 12:00:00";
  path_mkdir := fun _ =>
    Raise {| exn_class := PermissionError; exn_str := lit "[Errno 13]" |};
  path_write_text := fun _ _ => Ok tt
|}.

(** A host whose engine world is [world_node_denied]. *)
Definition host_node_denied : Host := {|
  world := world_node_denied;
  CLI_PROJECT_ROOT := lit "/srv/heartlink";
  now_text := lit "2024-05-01 12:00:00";
  path_mkdir := fun _ => Ok tt;
  path_write_text := fun _ _ => Ok tt
|}.

(** The configuration [load_default_config] builds in world [w]. *)
Definition default_config (w : World) : HeartLinkConfig :=
  {| env_path := path_join (PROJECT_ROOT w) (lit ".env");
     data_dir := path_join (PROJECT_ROOT w) (lit "data") |}.


(** A text with its line feeds written as CR LF. *)
Definition crlf (s : str) : str :=
  flat_map (fun c => if (c =? LF)%N then [CR; LF] else [c]) s.

(** The texts [display_results] prints for a report. *)
Definition colored_lines (results : DiagnosticResult) : list str :=
  map (fun kv => display_line (spec_color (status (snd kv))) RESET (fst kv) (snd kv))
      results.

(** Where [ensure_data_directory] and [run_environment_check] write. *)
Definition data_directory (h : Host) : Path :=
  path_join (CLI_PROJECT_ROOT h) (lit "data").
Definition report_path (h : Host) : Path :=
  path_join (data_directory h) (lit "env_report.txt").

(** The text [run_environment_check] hands to [write_text]. *)
Definition report_file_text (h : Host) (results : DiagnosticResult) : str :=
  join [LF] (report_lines (now_text h) results) ++ [LF].

(** No name, status or detail of the report holds a line boundary. *)
Definition single_line_records (results : DiagnosticResult) : bool :=
  forallb (fun kv => no_linebreak (fst kv) && no_linebreak (status (snd kv))
                     && no_linebreak (detail (snd kv))) results.

Definition count_actions (f : Action -> bool) (log : list Action) : nat :=
  List.length (filter f log).

(** The lines typed before the first one that chooses to quit. *)
Fixpoint before_quit (stdin : list str) : list str :=
  match stdin with
  | [] => []
  | line :: rest => if chooses "2" line then [] else line :: before_quit rest
  end.

(** The two faults of the sample worlds. *)
Definition nvidia_smi_not_found : exn :=
  {| exn_class := FileNotFoundError;
     exn_str := lit "[Errno 2] No such file or directory: 'nvidia-smi'" |}.
Definition node_permission_denied : exn :=
  {| exn_class := PermissionError;
     exn_str := lit "[Errno 13] Permission denied: 'node'" |}.

(** The first of two optional faults. *)
Definition or_else {A} (a b : option A) : option A :=
  match a with Some x => Some x | None => b end.

(** The fault that leaves [_run_command cmd]: what [subprocess.run] raises,
    unless line 30 catches it. *)
Definition uncaught_spawn (w : World) (cmd : list str) : option exn :=
  match spawn_fault (spawn w cmd) with
  | Some e => if caught_by [FileNotFoundError; SubprocessError] e then None else Some e
  | None => None
  end.

(** The fault that leaves [_detect_gpu_status]: one raised by the module
    lookup, or one that leaves the runner when [nvidia-smi] is spawned, which
    happens only without torch.  With torch, [except Exception] catches
    everything. *)
Definition gpu_uncaught (w : World) : option exn :=
  match find_spec w TORCH with
  | Raise e => Some e
  | Ok true => None
  | Ok false => uncaught_spawn w NVIDIA_SMI
  end.

(** The fault that leaves [_check_env_file]: one raised by the existence
    test, or one raised by the read, made only when the file exists, that is
    no [OSError]. *)
Definition env_uncaught (cfg : HeartLinkConfig) (w : World) : option exn :=
  match path_exists w (env_path cfg) with
  | Raise e => Some e
  | Ok false => None
  | Ok true =>
      match path_read_text w (env_path cfg) with
      | Ok _ => None
      | Raise e => if caught_by [OSError] e then None else Some e
      end
  end.

(** The first fault, in the order of the run, that no probe catches; only
    calls the run really makes are looked at. *)
Definition first_uncaught_fault (w : World) : option exn :=
  or_else (uncaught_spawn w NODE_VERSION)
    (or_else (uncaught_spawn w NPM_VERSION)
       (or_else (uncaught_spawn w (PIP_VERSION w))
          (or_else (gpu_uncaught w) (env_uncaught (default_config w) w)))).

(** A host with torch and a GPU, where [nvidia-smi] may not be executed. *)
Definition world_torch_smi_denied : World := {|
  platform_platform := platform_platform world_plain;
  sys_version := sys_version world_plain;
  sys_executable := sys_executable world_plain;
  PROJECT_ROOT := PROJECT_ROOT world_plain;
  spawn := fun cmd =>
    if list_eq_dec N.eq_dec (hd [] cmd) (lit "nvidia-smi")
    then Faulted {| exn_class := PermissionError; exn_str := lit "[Errno 13]" |}
    else spawn world_plain cmd;
  find_spec := fun _ => Ok true;
  import_module := import_module world_plain;
  cuda_is_available := Ok true;
  cuda_get_device_name := fun _ => Ok (lit "A100");
  path_exists := path_exists world_plain;
  path_read_text := path_read_text world_plain
|}.

(* ================================================================= *)
(** * Properties *)

(** ** Strings and statuses *)

Example lit_decodes_utf8 : lit "GPU: 检" = [71; 80; 85; 58; 32; 26816]%N.
Proof. reflexivity. Qed.

Example splitlines_boundaries :
  splitlines (lit "a" ++ [CR; LF] ++ lit "b" ++ [LF; LF] ++ lit "c" ++ [CR])
  = [lit "a"; lit "b"; []; lit "c"].
Proof. reflexivity. Qed.

Example strip_both_ends : strip (lit "  a b  ") = lit "a b".
Proof. reflexivity. Qed.

Example split1_first_separator :
  split1 EQUALS (lit "K=v=w") = [lit "K"; lit "v=w"]
  /\ split1 EQUALS (lit "Kv") = [lit "Kv"].
Proof. split; reflexivity. Qed.

Lemma eqb_eq (a b : str) : PyStr.eqb a b = true <-> a = b.
Proof.
  revert b; induction a as [|x a IH]; intros [|y b]; simpl;
    try (split; [discriminate | congruence]); try tauto.
  rewrite andb_true_iff, N.eqb_eq, IH. split.
  - intros [-> ->]; reflexivity.
  - intros H; inversion H; auto.
Qed.

Lemma eqb_refl (a : str) : PyStr.eqb a a = true.
Proof. apply eqb_eq; reflexivity. Qed.

Lemma eqb_neq (a b : str) : PyStr.eqb a b = false <-> a <> b.
Proof.
  destruct (PyStr.eqb a b) eqn:E.
  - apply eqb_eq in E. split; [discriminate | congruence].
  - split; [|reflexivity]. intros _ H. apply eqb_eq in H. congruence.
Qed.

Lemma kind_of_name (k : StatusKind) : kind_of (kind_name k) = Some k.
Proof. destruct k; reflexivity. Qed.

Lemma kind_of_some (s : str) (k : StatusKind) :
  kind_of s = Some k -> s = kind_name k.
Proof.
  unfold kind_of.
  destruct (PyStr.eqb s OK) eqn:E1; [apply eqb_eq in E1; intros [= <-]; exact E1|].
  destruct (PyStr.eqb s WARN) eqn:E2; [apply eqb_eq in E2; intros [= <-]; exact E2|].
  destruct (PyStr.eqb s FAIL) eqn:E3; [apply eqb_eq in E3; intros [= <-]; exact E3|].
  discriminate.
Qed.

Lemma kind_of_none (s : str) :
  kind_of s = None <-> s <> OK /\ s <> WARN /\ s <> FAIL.
Proof.
  unfold kind_of. rewrite <- !eqb_neq.
  destruct (PyStr.eqb s OK), (PyStr.eqb s WARN), (PyStr.eqb s FAIL);
    intuition discriminate.
Qed.

(** The priority the code gives a status: the severity of a recognised one,
    2 for anything else. *)
Lemma priority_kind (s : str) :
  priority s = match kind_of s with
               | Some k => Z.of_nat (severity k)
               | None => 2%Z
               end.
Proof.
  unfold priority, dict_get_default, STATUS_PRIORITY, dict_get, kind_of.
  rewrite (eq_true_iff_eq (PyStr.eqb OK s) (PyStr.eqb s OK))
    by (rewrite !eqb_eq; split; congruence).
  rewrite (eq_true_iff_eq (PyStr.eqb WARN s) (PyStr.eqb s WARN))
    by (rewrite !eqb_eq; split; congruence).
  rewrite (eq_true_iff_eq (PyStr.eqb FAIL s) (PyStr.eqb s FAIL))
    by (rewrite !eqb_eq; split; congruence).
  destruct (PyStr.eqb s OK); [reflexivity|].
  destruct (PyStr.eqb s WARN); [reflexivity|].
  destruct (PyStr.eqb s FAIL); reflexivity.
Qed.

Lemma priority_range (s : str) : (0 <= priority s <= 2)%Z.
Proof.
  rewrite priority_kind. destruct (kind_of s) as [[]|]; simpl; lia.
Qed.

(** ** [max] with a key *)

Section MaxKey.
Context {A : Type} (key : A -> Z).

(** The running maximum ends on the first element whose key is greatest:
    everything before it is strictly smaller, nothing after it is greater.
    [seen] and [mid] are what the loop has gone through before and after
    the current [best]. *)
Lemma max_go_first (l : list A) : forall (seen : list A) (best : A) (mid : list A),
  (forall x, In x seen -> (key x < key best)%Z) ->
  (forall x, In x mid -> (key x <= key best)%Z) ->
  exists l1 l2,
    seen ++ best :: mid ++ l = l1 ++ max_go key best l :: l2
    /\ (forall x, In x l1 -> (key x < key (max_go key best l))%Z)
    /\ (forall x, In x l2 -> (key x <= key (max_go key best l))%Z).
Proof.
  induction l as [|y l IH]; intros seen best mid Hseen Hmid; simpl.
  - exists seen, mid. rewrite app_nil_r. auto.
  - destruct (key best <? key y)%Z eqn:E.
    + apply Z.ltb_lt in E.
      destruct (IH (seen ++ best :: mid) y []) as (l1 & l2 & Heq & H1 & H2).
      * intros x Hx. apply in_app_or in Hx. destruct Hx as [Hx|[<-|Hx]].
        -- specialize (Hseen x Hx). lia.
        -- exact E.
        -- specialize (Hmid x Hx). lia.
      * intros x [].
      * exists l1, l2. rewrite <- Heq, <- app_assoc. simpl. auto.
    + apply Z.ltb_ge in E.
      destruct (IH seen best (mid ++ [y])) as (l1 & l2 & Heq & H1 & H2).
      * exact Hseen.
      * intros x Hx. apply in_app_or in Hx. destruct Hx as [Hx|[<-|[]]]; auto.
      * exists l1, l2. rewrite <- Heq, <- app_assoc. simpl. auto.
Qed.

Lemma py_max_first (l : list A) (m : A) :
  py_max key l = Ok m ->
  exists l1 l2,
    l = l1 ++ m :: l2
    /\ (forall x, In x l1 -> (key x < key m)%Z)
    /\ (forall x, In x l2 -> (key x <= key m)%Z).
Proof.
  destruct l as [|x l]; simpl; [discriminate|]. intros [= <-].
  destruct (max_go_first l [] x []) as (l1 & l2 & Heq & H1 & H2);
    [intros ? [] | intros ? [] |].
  exists l1, l2. auto.
Qed.

Lemma py_max_nonempty (x : A) (l : list A) : exists m, py_max key (x :: l) = Ok m.
Proof. simpl. eauto. Qed.

End MaxKey.

(** ** Finding the first match *)

Lemma find_skip {A} (f : A -> bool) (before rest : list A) :
  (forall x, In x before -> f x = false) ->
  find f (before ++ rest) = find f rest.
Proof.
  induction before as [|x before IH]; intros H; [reflexivity|].
  simpl. rewrite (H x (or_introl eq_refl)). apply IH.
  intros y Hy. apply H. right. exact Hy.
Qed.


(** ** The command runner *)

Lemma caught_by_exception (e : exn) : caught_by [Exception] e = true.
Proof. destruct e as [[] msg]; reflexivity. Qed.

(** What [_run_command] returns, case by case on what the spawn does. *)
Lemma run_command_eq (cmd : list str) (w : World) (t : Trace) :
  _run_command cmd w t =
  (match spawn w cmd with
   | Exited p =>
       Ok ((returncode p =? 0)%Z, str_or (strip (stdout p)) (strip (stderr p)))
   | Missing msg => Ok (false, msg)
   | TimedOut msg => Ok (false, msg)
   | Faulted e =>
       if caught_by [FileNotFoundError; SubprocessError] e
       then Ok (false, exn_str e) else Raise e
   end, t ++ [EvSpawn cmd]).
Proof.
  unfold _run_command, try_except, bind, subprocess_run, call, ret.
  destruct (spawn w cmd) as [p|msg|msg|e]; try reflexivity.
  destruct (caught_by _ e); reflexivity.
Qed.

Lemma run_command_success (cmd : list str) (w : World) (t t' : Trace)
      (b : bool) (out : str) :
  _run_command cmd w t = (Ok (b, out), t') -> b = command_succeeds w cmd.
Proof.
  rewrite run_command_eq. unfold command_succeeds.
  destruct (spawn w cmd) as [p|msg|msg|e]; try congruence.
  destruct (caught_by _ e); congruence.
Qed.

(** ** The probes answer OK or WARN *)

Ltac split_match :=
  match goal with
  | |- context [match ?x with _ => _ end] => destruct x eqn:?
  | H : context [match ?x with _ => _ end] |- _ => destruct x eqn:?
  end.

Ltac pair_eqs :=
  repeat match goal with
         | H : (_, _) = (_, _) |- _ => inversion H; subst; clear H
         | H : Ok _ = Ok _ |- _ => inversion H; subst; clear H
         | H : Raise _ = Raise _ |- _ => inversion H; subst; clear H
         end.

(** Run a probe symbolically: split on every answer of the world. *)
Ltac run_probe H :=
  repeat (first [rewrite run_command_eq in H | split_match];
          try discriminate; pair_eqs).

Lemma gpu_status_ok_or_warn (w : World) (t t' : Trace) (r : StatusDetail) :
  _detect_gpu_status w t = (Ok r, t') -> status r = OK \/ status r = WARN.
Proof.
  unfold _detect_gpu_status, bind, try_except, call, ret.
  intros H. run_probe H; simpl; auto.
Qed.

Lemma startswith_app (p v : str) : startswith p (p ++ v) = true.
Proof.
  induction p as [|x p IH]; simpl; [reflexivity|].
  rewrite N.eqb_refl. exact IH.
Qed.

Lemma startswith_inv (p s : str) :
  startswith p s = true -> exists v, s = p ++ v.
Proof.
  revert s; induction p as [|x p IH]; intros s H.
  - exists s. reflexivity.
  - destruct s as [|y s]; simpl in H; [discriminate|].
    apply andb_true_iff in H. destruct H as [Hxy H].
    apply N.eqb_eq in Hxy. subst y.
    destruct (IH s H) as [v ->]. exists v. reflexivity.
Qed.

(** On a text that starts with the prefix, [split("=", 1)[1]] is what
    follows the prefix. *)
Lemma key_value_after_prefix (v : str) :
  list_getitem (split1 EQUALS (KEY_PREFIX ++ v)) 1 = Ok v.
Proof. reflexivity. Qed.

Lemma after_first_prefix (v : str) : after_first EQUALS (KEY_PREFIX ++ v) = v.
Proof. reflexivity. Qed.

Lemma scan_env_lines_cons (line : str) (rest : list str) :
  scan_env_lines (line :: rest) =
  if startswith KEY_PREFIX (strip line) then
    match list_getitem (split1 EQUALS (strip line)) 1 with
    | Ok value => Ok (truthy value)
    | Raise e => Raise e
    end
  else scan_env_lines rest.
Proof. reflexivity. Qed.

(** The loop agrees with the specification's reading: the first line whose
    trimmed text starts with the prefix decides, by the text after its first
    equals sign.  In particular the subscript [[1]] never fails. *)
Lemma scan_env_lines_find (lines : list str) :
  scan_env_lines lines =
  Ok match find (fun l => startswith KEY_PREFIX (strip l)) lines with
     | Some l => truthy (after_first EQUALS (strip l))
     | None => false
     end.
Proof.
  induction lines as [|line rest IH]; [reflexivity|].
  rewrite scan_env_lines_cons. cbn [find].
  destruct (startswith KEY_PREFIX (strip line)) eqn:E; [|exact IH].
  destruct (startswith_inv _ _ E) as [v ->].
  rewrite key_value_after_prefix, after_first_prefix. reflexivity.
Qed.

Lemma scan_env_lines_total (lines : list str) : exists b, scan_env_lines lines = Ok b.
Proof. rewrite scan_env_lines_find. eauto. Qed.

Lemma env_status_ok_or_warn (cfg : HeartLinkConfig) (w : World) (t t' : Trace)
      (r : StatusDetail) :
  _check_env_file cfg w t = (Ok r, t') -> status r = OK \/ status r = WARN.
Proof.
  unfold _check_env_file, bind, try_except, call, ret, lift.
  intros H. run_probe H; simpl; auto.
Qed.

(** ** The engine, step by step *)

(** A returned report has the eight records in order; the statuses are what
    the three commands and the two delegated probes decide. *)
Lemma run_inv (w : World) (t t' : Trace) (report : DiagnosticResult) :
  run_env_diagnostics w t = (Ok report, t') ->
  exists sys py node npm pip gpu env summary,
    report = [(lit "system", sys); (lit "python", py); (lit "node", node);
              (lit "npm", npm); (lit "pip", pip); (lit "gpu", gpu);
              (lit "env_file", env); (lit "summary", summary)]
    /\ status sys = OK /\ status py = OK
    /\ status node = (if command_succeeds w NODE_VERSION then OK else WARN)
    /\ status npm = (if command_succeeds w NPM_VERSION then OK else WARN)
    /\ status pip = (if command_succeeds w (PIP_VERSION w) then OK else FAIL)
    /\ (status gpu = OK \/ status gpu = WARN)
    /\ (status env = OK \/ status env = WARN)
    /\ summarize [status sys; status py; status node; status npm; status pip;
                  status gpu; status env] = Ok summary.
Proof.
  unfold run_env_diagnostics, load_default_config.
  unfold bind, read, ret, lift.
  intros H.
  destruct (_run_command [lit "node"; lit "--version"] w t)
    as [[[nb no]|e] t1] eqn:Hnode; [|discriminate].
  apply run_command_success in Hnode.
  destruct nb; cbv beta iota zeta in H;
  (destruct (_run_command [lit "npm"; lit "--version"] w t1)
    as [[[mb mo]|e] t2] eqn:Hnpm; [|discriminate]);
  apply run_command_success in Hnpm;
  destruct mb; cbv beta iota zeta in H;
  (destruct (_run_command [sys_executable w; lit "-m"; lit "pip"; lit "--version"] w t2)
    as [[[pb po]|e] t3] eqn:Hpip; [|discriminate]);
  apply run_command_success in Hpip;
  destruct pb; cbv beta iota zeta in H;
  (destruct (_detect_gpu_status w t3) as [[gpu|e] t4] eqn:Hgpu; [|discriminate]);
  apply gpu_status_ok_or_warn in Hgpu;
  match type of H with context [_check_env_file ?c w t4] =>
    destruct (_check_env_file c w t4) as [[env|e] t5] eqn:Henv; [|discriminate] end;
  apply env_status_ok_or_warn in Henv;
  match type of H with context [summarize ?l] =>
    destruct (summarize l) as [summary|e] eqn:Hsum; [|discriminate] end;
  injection H as <- _;
  (do 8 eexists; split; [reflexivity|]);
  cbn [status];
  fold NODE_VERSION in Hnode; fold NPM_VERSION in Hnpm;
  change [sys_executable w; lit "-m"; lit "pip"; lit "--version"]
    with (PIP_VERSION w) in Hpip;
  rewrite <- Hnode, <- Hnpm, <- Hpip;
  repeat split; try assumption; try reflexivity.
Qed.

(** ** The roll-up *)

Lemma severity_inj (a b : StatusKind) : severity a = severity b -> a = b.
Proof. destruct a, b; simpl; congruence. Qed.

Lemma kind_max_cases (a b : StatusKind) :
  (kind_max a b = a \/ kind_max a b = b)
  /\ severity a <= severity (kind_max a b)
  /\ severity b <= severity (kind_max a b).
Proof. destruct a, b; simpl; auto. Qed.

(** [spec_rollup] picks a status of the list that no other status exceeds. *)
Lemma spec_rollup_max (l : list str) : forall k,
  spec_rollup l = Some k ->
  In (kind_name k) l
  /\ forall x, In x l -> exists kx, kind_of x = Some kx /\ severity kx <= severity k.
Proof.
  induction l as [|s rest IH]; intros k H; [discriminate|].
  cbn [spec_rollup] in H.
  destruct (kind_of s) as [ks|] eqn:Es; [|discriminate].
  destruct rest as [|s' rest'].
  - injection H as <-. split.
    + left. apply kind_of_some. exact Es.
    + intros x [<-|[]]. eauto.
  - destruct (spec_rollup (s' :: rest')) as [m|] eqn:Em; [|discriminate].
    injection H as <-.
    destruct (IH m eq_refl) as [Hin Hall].
    destruct (kind_max_cases ks m) as [[Hk|Hk] [H1 H2]]; rewrite Hk in *.
    + split.
      * left. apply kind_of_some. exact Es.
      * intros x [<-|Hx]; [eauto|].
        destruct (Hall x Hx) as [kx [Hkx Hle]]. exists kx. split; [exact Hkx|lia].
    + split.
      * right. exact Hin.
      * intros x [<-|Hx]; [eauto|]. apply Hall. exact Hx.
Qed.

(** On recognised statuses the code's [max] returns the specification's
    maximum by severity. *)
Lemma summarize_rollup (l : list str) (k : StatusKind) :
  spec_rollup l = Some k ->
  exists r, summarize l = Ok r /\ status r = kind_name k.
Proof.
  intros H. destruct (spec_rollup_max l k H) as [Hin Hall].
  unfold summarize.
  destruct l as [|x l]; [discriminate|].
  destruct (py_max_nonempty priority x l) as [m Hm]. rewrite Hm.
  eexists. split; [reflexivity|]. cbn [status].
  destruct (py_max_first priority (x :: l) m Hm) as (l1 & l2 & Heq & H1 & H2).
  assert (Hmin : In m (x :: l)) by (rewrite Heq; apply in_elt).
  destruct (Hall m Hmin) as [km [Hkm Hle]].
  assert (Hge : (priority (kind_name k) <= priority m)%Z).
  { rewrite Heq in Hin. apply in_app_or in Hin. destruct Hin as [Hi|[Hi|Hi]].
    - specialize (H1 _ Hi). lia.
    - rewrite Hi. lia.
    - apply H2. exact Hi. }
  rewrite !priority_kind, kind_of_name, Hkm in Hge.
  assert (km = k) by (apply severity_inj; lia). subst km.
  apply kind_of_some. exact Hkm.
Qed.

(** ** When the probes return *)

Lemma result_inv {A} (c : M A) (w : World) (t : Trace) (a : A) :
  result c w t = Ok a -> exists t', c w t = (Ok a, t').
Proof.
  unfold result. destruct (c w t) as [r t']. simpl. intros ->. eauto.
Qed.

Lemma run_command_returns (cmd : list str) (w : World) (t : Trace) :
  command_handled w cmd = true ->
  exists out, _run_command cmd w t = (Ok (command_succeeds w cmd, out), t ++ [EvSpawn cmd]).
Proof.
  unfold command_handled, command_succeeds. rewrite run_command_eq.
  destruct (spawn w cmd) as [p|msg|msg|e]; simpl; intros H; eauto.
  rewrite H. eauto.
Qed.

Lemma gpu_returns (w : World) (t : Trace) :
  is_ok (find_spec w TORCH) = true ->
  command_handled w NVIDIA_SMI = true ->
  exists r t', _detect_gpu_status w t = (Ok r, t').
Proof.
  intros Hspec Hsmi.
  unfold _detect_gpu_status, bind, try_except, call, ret.
  destruct (find_spec w TORCH) as [[|]|e]; [| |discriminate].
  - repeat (split_match; pair_eqs; try rewrite caught_by_exception in *); eauto;
      discriminate.
  - destruct (run_command_returns NVIDIA_SMI w (t ++ [EvFindSpec TORCH]) Hsmi)
      as [out ->].
    destruct (command_succeeds w NVIDIA_SMI); eauto.
Qed.

Lemma env_returns (cfg : HeartLinkConfig) (w : World) (t : Trace) :
  is_ok (path_exists w (env_path cfg)) = true ->
  match path_read_text w (env_path cfg) with
  | Ok _ => true
  | Raise e => caught_by [OSError] e
  end = true ->
  exists r t', _check_env_file cfg w t = (Ok r, t').
Proof.
  intros Hex Hread.
  unfold _check_env_file, bind, try_except, call, ret, lift.
  destruct (path_exists w (env_path cfg)) as [[|]|e]; [| |discriminate];
    cbn [negb]; [|eauto].
  destruct (path_read_text w (env_path cfg)) as [content|e].
  - destruct (scan_env_lines_total (splitlines content)) as [b ->].
    destruct b; eauto.
  - rewrite Hread. eauto.
Qed.

Lemma run_returns (w : World) (t : Trace) :
  faults_handled w = true ->
  exists report, result run_env_diagnostics w t = Ok report.
Proof.
  unfold faults_handled. rewrite !andb_true_iff.
  intros [[[[[[Hnode Hnpm] Hpip] Hsmi] Hspec] Hex] Hread].
  unfold result, run_env_diagnostics, load_default_config.
  unfold bind, read, ret, lift.
  fold NODE_VERSION NPM_VERSION.
  destruct (run_command_returns NODE_VERSION w t Hnode) as [o1 ->].
  destruct (command_succeeds w NODE_VERSION); cbv beta iota zeta;
  match goal with |- context [_run_command NPM_VERSION w ?t1] =>
    destruct (run_command_returns NPM_VERSION w t1 Hnpm) as [o2 ->] end;
  destruct (command_succeeds w NPM_VERSION); cbv beta iota zeta;
  change [sys_executable w; lit "-m"; lit "pip"; lit "--version"] with (PIP_VERSION w);
  match goal with |- context [_run_command (PIP_VERSION w) w ?t2] =>
    destruct (run_command_returns (PIP_VERSION w) w t2 Hpip) as [o3 ->] end;
  destruct (command_succeeds w (PIP_VERSION w)); cbv beta iota zeta;
  match goal with |- context [_detect_gpu_status w ?t3] =>
    destruct (gpu_returns w t3 Hspec Hsmi) as (gpu & t4 & ->) end;
  match goal with |- context [_check_env_file ?c w ?t4] =>
    destruct (env_returns c w t4 Hex Hread) as (env & t5 & ->) end;
  cbv [summarize py_max app fst];
  eexists; reflexivity.
Qed.

Lemma env_read_fault_escapes (cfg : HeartLinkConfig) (w : World) (t : Trace) (e : exn) :
  path_exists w (env_path cfg) = Ok true ->
  path_read_text w (env_path cfg) = Raise e ->
  caught_by [OSError] e = false ->
  result (_check_env_file cfg) w t = Raise e.
Proof.
  intros Hex Hread Hc.
  unfold result, _check_env_file, bind, try_except, call.
  rewrite Hex. cbn [negb]. rewrite Hread, Hc. reflexivity.
Qed.

(** The engine hands on what the secrets-file probe lets through. *)
Lemma run_env_fault_escapes (w : World) (t : Trace) (e : exn) :
  command_handled w NODE_VERSION = true ->
  command_handled w NPM_VERSION = true ->
  command_handled w (PIP_VERSION w) = true ->
  command_handled w NVIDIA_SMI = true ->
  is_ok (find_spec w TORCH) = true ->
  path_exists w (path_join (PROJECT_ROOT w) (lit ".env")) = Ok true ->
  path_read_text w (path_join (PROJECT_ROOT w) (lit ".env")) = Raise e ->
  caught_by [OSError] e = false ->
  result run_env_diagnostics w t = Raise e.
Proof.
  intros Hnode Hnpm Hpip Hsmi Hspec Hex Hread Hc.
  unfold result, run_env_diagnostics, load_default_config.
  unfold bind, read, ret, lift.
  fold NODE_VERSION NPM_VERSION.
  destruct (run_command_returns NODE_VERSION w t Hnode) as [o1 ->].
  destruct (command_succeeds w NODE_VERSION); cbv beta iota zeta;
  match goal with |- context [_run_command NPM_VERSION w ?t1] =>
    destruct (run_command_returns NPM_VERSION w t1 Hnpm) as [o2 ->] end;
  destruct (command_succeeds w NPM_VERSION); cbv beta iota zeta;
  change [sys_executable w; lit "-m"; lit "pip"; lit "--version"] with (PIP_VERSION w);
  match goal with |- context [_run_command (PIP_VERSION w) w ?t2] =>
    destruct (run_command_returns (PIP_VERSION w) w t2 Hpip) as [o3 ->] end;
  destruct (command_succeeds w (PIP_VERSION w)); cbv beta iota zeta;
  match goal with |- context [_detect_gpu_status w ?t3] =>
    destruct (gpu_returns w t3 Hspec Hsmi) as (gpu & t4 & ->) end;
  match goal with |- context [_check_env_file ?c w ?t4] =>
    pose proof (env_read_fault_escapes c w t4 e Hex Hread Hc) as Henv;
    unfold result in Henv;
    destruct (_check_env_file c w t4) as [r5 t5]; cbn [fst] in Henv; subst r5 end;
  reflexivity.
Qed.

(** ** The engine: which records *)

(** The result of the command runner does not depend on the trace. *)
Lemma run_command_result_any_trace (cmd : list str) (w : World) (t t0 : Trace) :
  fst (_run_command cmd w t) = fst (_run_command cmd w t0).
Proof. rewrite !run_command_eq. reflexivity. Qed.

Lemma gpu_result_any_trace (w : World) (t t0 : Trace) :
  result _detect_gpu_status w t = result _detect_gpu_status w t0.
Proof.
  unfold result, _detect_gpu_status, bind, try_except, call, ret.
  destruct (find_spec w TORCH) as [[|]|e]; [| |reflexivity].
  - destruct (import_module w TORCH) as [[]|e1];
      [destruct (cuda_is_available w) as [[|]|e2];
       [destruct (cuda_get_device_name w 0%Z) as [name|e3]| |]|];
      try rewrite caught_by_exception; reflexivity.
  - rewrite !run_command_eq.
    destruct (spawn w NVIDIA_SMI) as [p|msg|msg|e]; try reflexivity.
    + destruct (returncode p =? 0)%Z; reflexivity.
    + destruct (caught_by _ e); reflexivity.
Qed.

Lemma env_result_any_trace (cfg : HeartLinkConfig) (w : World) (t t0 : Trace) :
  result (_check_env_file cfg) w t = result (_check_env_file cfg) w t0.
Proof.
  unfold result, _check_env_file, bind, try_except, call, ret, lift.
  destruct (path_exists w (env_path cfg)) as [[|]|e]; cbn [negb]; try reflexivity.
  destruct (path_read_text w (env_path cfg)) as [content|e].
  - destruct (scan_env_lines (splitlines content)) as [[|]|e]; reflexivity.
  - destruct (caught_by [OSError] e); reflexivity.
Qed.

(** A returned run, in full: the three commands were spawned in order, the
    two delegated probes ran after them, and the report holds what they
    returned. *)
Lemma run_inv_full (w : World) (t t' : Trace) (report : DiagnosticResult) :
  run_env_diagnostics w t = (Ok report, t') ->
  exists node_out npm_out pip_out gpu env summary t4,
    _run_command NODE_VERSION w t
      = (Ok (command_succeeds w NODE_VERSION, node_out), t ++ [EvSpawn NODE_VERSION])
    /\ _run_command NPM_VERSION w (t ++ [EvSpawn NODE_VERSION])
      = (Ok (command_succeeds w NPM_VERSION, npm_out),
         (t ++ [EvSpawn NODE_VERSION]) ++ [EvSpawn NPM_VERSION])
    /\ _run_command (PIP_VERSION w) w ((t ++ [EvSpawn NODE_VERSION]) ++ [EvSpawn NPM_VERSION])
      = (Ok (command_succeeds w (PIP_VERSION w), pip_out),
         ((t ++ [EvSpawn NODE_VERSION]) ++ [EvSpawn NPM_VERSION])
           ++ [EvSpawn (PIP_VERSION w)])
    /\ _detect_gpu_status w
         (((t ++ [EvSpawn NODE_VERSION]) ++ [EvSpawn NPM_VERSION])
            ++ [EvSpawn (PIP_VERSION w)]) = (Ok gpu, t4)
    /\ _check_env_file (default_config w) w t4 = (Ok env, t')
    /\ report =
       [(lit "system", {| status := OK; detail := platform_platform w |});
        (lit "python", {| status := OK;
                          detail := replace_char LF SPACE (sys_version w) |});
        (lit "node", if command_succeeds w NODE_VERSION
                     then {| status := OK; detail := node_out |}
                     else {| status := WARN;
                             detail := lit "未检测到 Node.js，请安装 LTS 版本以支持前端。" |});
        (lit "npm", if command_succeeds w NPM_VERSION
                    then {| status := OK; detail := npm_out |}
                    else {| status := WARN;
                            detail := lit "未检测到 npm，请随 Node.js 一并安装。" |});
        (lit "pip", if command_succeeds w (PIP_VERSION w)
                    then {| status := OK; detail := pip_out |}
                    else {| status := FAIL;
                            detail := lit "未检测到 pip，请使用官方安装程序修复 Python。" |});
        (lit "gpu", gpu); (lit "env_file", env); (lit "summary", summary)]
    /\ summarize [OK; OK;
                  if command_succeeds w NODE_VERSION then OK else WARN;
                  if command_succeeds w NPM_VERSION then OK else WARN;
                  if command_succeeds w (PIP_VERSION w) then OK else FAIL;
                  status gpu; status env] = Ok summary.
Proof.
  unfold run_env_diagnostics, load_default_config.
  unfold bind, read, ret, lift.
  fold NODE_VERSION NPM_VERSION. fold (default_config w).
  intros H.
  destruct (_run_command NODE_VERSION w t) as [[[nb no]|e] t1] eqn:Hnode;
    [|discriminate].
  pose proof (run_command_success _ _ _ _ _ _ Hnode) as Hnb.
  assert (Ht1 : t1 = t ++ [EvSpawn NODE_VERSION])
    by (rewrite run_command_eq in Hnode; congruence).
  subst nb t1.
  destruct (command_succeeds w NODE_VERSION); cbv beta iota zeta in H;
  (destruct (_run_command NPM_VERSION w (t ++ [EvSpawn NODE_VERSION]))
    as [[[mb mo]|e] t2] eqn:Hnpm; [|discriminate]);
  pose proof (run_command_success _ _ _ _ _ _ Hnpm) as Hmb;
  (assert (Ht2 : t2 = (t ++ [EvSpawn NODE_VERSION]) ++ [EvSpawn NPM_VERSION])
    by (rewrite run_command_eq in Hnpm; congruence));
  subst mb t2;
  destruct (command_succeeds w NPM_VERSION); cbv beta iota zeta in H;
  change [sys_executable w; lit "-m"; lit "pip"; lit "--version"]
    with (PIP_VERSION w) in H;
  (destruct (_run_command (PIP_VERSION w) w
               ((t ++ [EvSpawn NODE_VERSION]) ++ [EvSpawn NPM_VERSION]))
    as [[[pb po]|e] t3] eqn:Hpip; [|discriminate]);
  pose proof (run_command_success _ _ _ _ _ _ Hpip) as Hpb;
  (assert (Ht3 : t3 = ((t ++ [EvSpawn NODE_VERSION]) ++ [EvSpawn NPM_VERSION])
                        ++ [EvSpawn (PIP_VERSION w)])
    by (rewrite run_command_eq in Hpip; congruence));
  subst pb t3;
  destruct (command_succeeds w (PIP_VERSION w)); cbv beta iota zeta in H;
  match type of H with context [_detect_gpu_status w ?t3] =>
    destruct (_detect_gpu_status w t3) as [[gpu|e] t4] eqn:Hgpu; [|discriminate] end;
  (destruct (_check_env_file (default_config w) w t4) as [[env|e] t5] eqn:Henv;
    [|discriminate]);
  match type of H with context [summarize ?l] =>
    destruct (summarize l) as [summary|e] eqn:Hsum; [|discriminate] end;
  injection H as <- <-;
  exists no, mo, po, gpu, env, summary, t4;
  repeat split; try assumption; try reflexivity.
Qed.

(** ** Which faults leave the probes *)

Lemma uncaught_none_handled (w : World) (cmd : list str) :
  uncaught_spawn w cmd = None <-> command_handled w cmd = true.
Proof.
  unfold uncaught_spawn, command_handled.
  destruct (spawn_fault (spawn w cmd)) as [e|]; [|tauto].
  destruct (caught_by _ e); split; congruence.
Qed.

Lemma run_command_escapes (cmd : list str) (w : World) (t : Trace) (e : exn) :
  uncaught_spawn w cmd = Some e ->
  _run_command cmd w t = (Raise e, t ++ [EvSpawn cmd]).
Proof.
  unfold uncaught_spawn. rewrite run_command_eq.
  destruct (spawn w cmd) as [p|msg|msg|e']; cbn [spawn_fault]; try discriminate.
  destruct (caught_by _ e'); [discriminate|]. intros [= <-]. reflexivity.
Qed.

Lemma run_command_returns_uncaught (cmd : list str) (w : World) (t : Trace) :
  uncaught_spawn w cmd = None ->
  exists out,
    _run_command cmd w t = (Ok (command_succeeds w cmd, out), t ++ [EvSpawn cmd]).
Proof.
  intros H. apply run_command_returns. apply uncaught_none_handled. exact H.
Qed.

Lemma gpu_outcome (w : World) (t : Trace) :
  match gpu_uncaught w with
  | None => exists r t', _detect_gpu_status w t = (Ok r, t')
  | Some e => exists t', _detect_gpu_status w t = (Raise e, t')
  end.
Proof.
  unfold gpu_uncaught.
  destruct (find_spec w TORCH) as [[|]|e] eqn:Hspec.
  - unfold _detect_gpu_status, bind, try_except, call, ret. rewrite Hspec.
    destruct (import_module w TORCH) as [[]|e1];
      [destruct (cuda_is_available w) as [[|]|e2];
       [destruct (cuda_get_device_name w 0%Z) as [name|e3]| |]|];
      try rewrite caught_by_exception; eauto.
  - destruct (uncaught_spawn w NVIDIA_SMI) as [e|] eqn:Hs.
    + unfold _detect_gpu_status, bind, call. rewrite Hspec.
      rewrite (run_command_escapes _ _ _ _ Hs). eauto.
    + apply gpu_returns; [rewrite Hspec; reflexivity|].
      apply uncaught_none_handled. exact Hs.
  - unfold _detect_gpu_status, bind, call. rewrite Hspec. eauto.
Qed.

Lemma env_outcome (cfg : HeartLinkConfig) (w : World) (t : Trace) :
  match env_uncaught cfg w with
  | None => exists r t', _check_env_file cfg w t = (Ok r, t')
  | Some e => exists t', _check_env_file cfg w t = (Raise e, t')
  end.
Proof.
  unfold env_uncaught.
  destruct (path_exists w (env_path cfg)) as [[|]|e] eqn:Hex.
  - destruct (path_read_text w (env_path cfg)) as [content|e] eqn:Hread.
    + apply env_returns; [rewrite Hex|rewrite Hread]; reflexivity.
    + destruct (caught_by [OSError] e) eqn:Hc.
      * apply env_returns; [rewrite Hex|rewrite Hread]; [reflexivity|exact Hc].
      * unfold _check_env_file, bind, try_except, call.
        rewrite Hex. cbn [negb]. rewrite Hread, Hc. eauto.
  - unfold _check_env_file, bind, call, ret. rewrite Hex. cbn [negb]. eauto.
  - unfold _check_env_file, bind, call. rewrite Hex. eauto.
Qed.

(** The engine returns a report unless a fault leaves one of its probes, and
    then the first such fault, in the order of the run, leaves the engine. *)
Lemma run_outcome (w : World) (t : Trace) :
  match first_uncaught_fault w with
  | None => exists report, result run_env_diagnostics w t = Ok report
  | Some e => result run_env_diagnostics w t = Raise e
  end.
Proof.
  unfold first_uncaught_fault, or_else.
  unfold result, run_env_diagnostics, load_default_config.
  unfold bind, read, ret, lift.
  fold NODE_VERSION NPM_VERSION. fold (default_config w).
  destruct (uncaught_spawn w NODE_VERSION) as [e|] eqn:E1;
    [rewrite (run_command_escapes _ _ _ _ E1); reflexivity|].
  destruct (run_command_returns_uncaught NODE_VERSION w t E1) as [o1 ->].
  destruct (uncaught_spawn w NPM_VERSION) as [e|] eqn:E2.
  { destruct (command_succeeds w NODE_VERSION); cbv beta iota zeta;
      rewrite (run_command_escapes _ _ _ _ E2); reflexivity. }
  destruct (uncaught_spawn w (PIP_VERSION w)) as [e|] eqn:E3.
  { destruct (command_succeeds w NODE_VERSION); cbv beta iota zeta;
      match goal with |- context [_run_command NPM_VERSION w ?t1] =>
        destruct (run_command_returns_uncaught NPM_VERSION w t1 E2) as [o2 ->] end;
      destruct (command_succeeds w NPM_VERSION); cbv beta iota zeta;
      change [sys_executable w; lit "-m"; lit "pip"; lit "--version"]
        with (PIP_VERSION w);
      rewrite (run_command_escapes _ _ _ _ E3); reflexivity. }
  destruct (command_succeeds w NODE_VERSION); cbv beta iota zeta;
  match goal with |- context [_run_command NPM_VERSION w ?t1] =>
    destruct (run_command_returns_uncaught NPM_VERSION w t1 E2) as [o2 ->] end;
  destruct (command_succeeds w NPM_VERSION); cbv beta iota zeta;
  change [sys_executable w; lit "-m"; lit "pip"; lit "--version"] with (PIP_VERSION w);
  match goal with |- context [_run_command (PIP_VERSION w) w ?t2] =>
    destruct (run_command_returns_uncaught (PIP_VERSION w) w t2 E3) as [o3 ->] end;
  destruct (command_succeeds w (PIP_VERSION w)); cbv beta iota zeta;
  match goal with |- context [_detect_gpu_status w ?t3] =>
    pose proof (gpu_outcome w t3) as Hg end;
  (destruct (gpu_uncaught w) as [e|];
   [destruct Hg as [t4 ->]; reflexivity|]);
  destruct Hg as (gpu & t4 & ->);
  pose proof (env_outcome (default_config w) w t4) as He;
  (destruct (env_uncaught (default_config w) w) as [e|];
   [destruct He as [t5 ->]; reflexivity|]);
  destruct He as (env & t5 & ->);
  cbv [summarize py_max app fst];
  eexists; reflexivity.
Qed.

(** A command that raised and was caught did not succeed. *)
Lemma faulted_command_fails (w : World) (cmd : list str) (e : exn) :
  spawn_fault (spawn w cmd) = Some e -> command_succeeds w cmd = false.
Proof.
  unfold command_succeeds. destruct (spawn w cmd); cbn; congruence.
Qed.

Lemma gpu_torch_fault_warn (w : World) (t : Trace) (e : exn) :
  find_spec w TORCH = Ok true ->
  torch_query_fault w = Some e ->
  result _detect_gpu_status w t
  = Ok {| status := WARN;
          detail := lit "PyTorch 存在但无法获取 GPU 信息: " ++ exn_str e |}.
Proof.
  unfold result, torch_query_fault, _detect_gpu_status, bind, try_except, call, ret.
  intros ->.
  destruct (import_module w TORCH) as [[]|e1];
    [destruct (cuda_is_available w) as [[|]|e2];
     [destruct (cuda_get_device_name w 0%Z) as [name|e3]| |]|];
    try rewrite caught_by_exception; cbn [fst]; congruence.
Qed.

Lemma gpu_smi_fault_warn (w : World) (t : Trace) (e : exn) (r : StatusDetail) :
  find_spec w TORCH = Ok false ->
  spawn_fault (spawn w NVIDIA_SMI) = Some e ->
  result _detect_gpu_status w t = Ok r ->
  r = {| status := WARN;
         detail := lit "未检测到 PyTorch 或 nvidia-smi，如需 GPU 请安装相关驱动。" |}.
Proof.
  unfold result, _detect_gpu_status, bind, call, ret. intros -> He.
  rewrite run_command_eq.
  destruct (spawn w NVIDIA_SMI) as [p|msg|msg|e']; cbn [spawn_fault] in He;
    [discriminate | | |];
    try destruct (caught_by _ e');
    cbv beta iota zeta delta [fst]; congruence.
Qed.

Lemma env_read_fault_warn (cfg : HeartLinkConfig) (w : World) (t : Trace)
      (e : exn) (r : StatusDetail) :
  path_exists w (env_path cfg) = Ok true ->
  path_read_text w (env_path cfg) = Raise e ->
  result (_check_env_file cfg) w t = Ok r ->
  r = {| status := WARN; detail := lit "读取 .env 文件失败: " ++ exn_str e |}.
Proof.
  intros Hex Hread.
  destruct (caught_by [OSError] e) eqn:Hc.
  - unfold result, _check_env_file, bind, try_except, call, ret.
    rewrite Hex. cbn [negb]. rewrite Hread, Hc.
    cbv beta iota zeta delta [fst]. congruence.
  - rewrite (env_read_fault_escapes cfg w t e Hex Hread Hc). discriminate.
Qed.

(* ================================================================= *)
(** * The claims *)

(** ** Aggregation *)

(** C1.  Whenever a run returns a report, the report ends with the
    [summary] record, and the status of that record is the maximum, in the
    order OK < WARN < FAIL, of the statuses of the records before it.  The
    status is given by [spec_rollup], a function of those statuses only, and
    it is not OK as soon as one of them is WARN or FAIL. *)
Theorem summary_status_is_max_severity
        (w : World) (t : Trace) (report : DiagnosticResult)
        (Hrun : result run_env_diagnostics w t = Ok report) :
  exists others summary k,
    report = others ++ [(lit "summary", summary)]
    /\ spec_rollup (statuses_of others) = Some k
    /\ status summary = kind_name k
    /\ (forall s, In s (statuses_of others) -> s = WARN \/ s = FAIL ->
        status summary <> OK).
Proof.
  destruct (result_inv _ _ _ _ Hrun) as [t' Hrun'].
  destruct (run_inv w t t' report Hrun')
    as (sys & py & node & npm & pip & gpu & env & summary & -> & Hsys & Hpy
        & Hnode & Hnpm & Hpip & Hgpu & Henv & Hsum).
  assert (Hk : exists k, spec_rollup [status sys; status py; status node;
                                      status npm; status pip; status gpu;
                                      status env] = Some k).
  { rewrite Hsys, Hpy, Hnode, Hnpm, Hpip.
    destruct (command_succeeds w NODE_VERSION), (command_succeeds w NPM_VERSION),
      (command_succeeds w (PIP_VERSION w)), Hgpu as [-> | ->], Henv as [-> | ->];
      eexists; reflexivity. }
  destruct Hk as [k Hk].
  destruct (summarize_rollup _ k Hk) as (r & Hr & Hstatus).
  rewrite Hsum in Hr. injection Hr as <-.
  exists [(lit "system", sys); (lit "python", py); (lit "node", node);
          (lit "npm", npm); (lit "pip", pip); (lit "gpu", gpu);
          (lit "env_file", env)], summary, k.
  split; [reflexivity|]. split; [exact Hk|]. split; [exact Hstatus|].
  intros s Hs Hbad Hok.
  destruct (spec_rollup_max _ k Hk) as [_ Hall].
  destruct (Hall s Hs) as (ks & Hks & Hle).
  rewrite Hstatus in Hok.
  assert (k = KOk).
  { pose proof (kind_of_name k) as Hn. rewrite Hok in Hn.
    change (kind_of OK) with (Some KOk) in Hn. congruence. }
  subst k. simpl in Hle.
  destruct Hbad as [-> | ->]; vm_compute in Hks; injection Hks as <-;
    simpl in Hle; lia.
Qed.

Lemma summary_status_is_max_severity_witness :
  result run_env_diagnostics world_plain [] = Ok report_plain
  /\ exists others summary k,
       report_plain = others ++ [(lit "summary", summary)]
       /\ spec_rollup (statuses_of others) = Some k
       /\ status summary = kind_name k
       /\ (forall s, In s (statuses_of others) -> s = WARN \/ s = FAIL ->
           status summary <> OK).
Proof.
  split; [reflexivity|].
  apply (summary_status_is_max_severity world_plain [] report_plain).
  reflexivity.
Defined.

(** Once FAIL is the running maximum it stays: no key exceeds 2. *)
Lemma max_go_fail (l : list str) : max_go priority FAIL l = FAIL.
Proof.
  induction l as [|x l IH]; simpl; [reflexivity|].
  destruct (priority FAIL <? priority x)%Z eqn:E; [|exact IH].
  apply Z.ltb_lt in E. pose proof (priority_range x).
  change (priority FAIL) with 2%Z in E. lia.
Qed.

Lemma max_go_reaches_fail (l1 l2 : list str) : forall best,
  kind_of best <> None ->
  (forall x, In x l1 -> kind_of x <> None) ->
  max_go priority best (l1 ++ FAIL :: l2) = FAIL.
Proof.
  induction l1 as [|y l1 IH]; intros best Hbest Hall; simpl.
  - destruct (priority best <? priority FAIL)%Z eqn:E; [apply max_go_fail|].
    apply Z.ltb_ge in E. change (priority FAIL) with 2%Z in E.
    rewrite priority_kind in E.
    destruct (kind_of best) as [k|] eqn:Ek; [|congruence].
    assert (k = KFail) by (destruct k; simpl in E; try lia; reflexivity). subst k.
    apply kind_of_some in Ek. rewrite Ek. apply max_go_fail.
  - destruct (priority best <? priority y)%Z.
    + apply IH; [apply Hall; left; reflexivity | intros x Hx; apply Hall; right; exact Hx].
    + apply IH; [exact Hbest | intros x Hx; apply Hall; right; exact Hx].
Qed.

(** C10.  The roll-up gives every unrecognised status the priority 2, the
    very priority of FAIL; the status it returns is the first one in record
    order among those of greatest priority (strictly smaller before it, none
    greater after it); so when a FAIL comes before every unrecognised status
    the summary status is FAIL. *)
Theorem unrecognized_ranks_with_fail_first_wins :
  (forall s, kind_of s = None -> priority s = 2%Z /\ priority s = priority FAIL)
  /\ (forall records summary,
        summarize records = Ok summary ->
        exists before after,
          records = before ++ status summary :: after
          /\ (forall x, In x before -> (priority x < priority (status summary))%Z)
          /\ (forall x, In x after -> (priority x <= priority (status summary))%Z))
  /\ (forall before after,
        (forall x, In x before -> kind_of x <> None) ->
        exists summary,
          summarize (before ++ FAIL :: after) = Ok summary
          /\ status summary = FAIL).
Proof.
  split; [|split].
  - intros s Hs. rewrite priority_kind, Hs. split; reflexivity.
  - intros records summary H. unfold summarize in H.
    destruct (py_max priority records) as [m|e] eqn:Em; [|discriminate].
    injection H as <-. cbn [status].
    apply py_max_first. exact Em.
  - intros before after Hall. unfold summarize.
    destruct before as [|b before]; simpl.
    + rewrite max_go_fail. eexists. split; reflexivity.
    + rewrite max_go_reaches_fail.
      * eexists. split; reflexivity.
      * apply Hall. left. reflexivity.
      * intros x Hx. apply Hall. right. exact Hx.
Qed.

Lemma unrecognized_ranks_with_fail_first_wins_witness :
  kind_of (lit "BROKEN") = None
  /\ priority (lit "BROKEN") = 2%Z
  /\ exists summary,
       summarize ([OK; WARN] ++ FAIL :: [lit "BROKEN"; OK]) = Ok summary
       /\ status summary = FAIL.
Proof.
  split; [reflexivity|]. split.
  - apply (proj1 unrecognized_ranks_with_fail_first_wins (lit "BROKEN")).
    reflexivity.
  - apply (proj2 (proj2 unrecognized_ranks_with_fail_first_wins) [OK; WARN]).
    intros x [<-|[<-|[]]]; discriminate.
Defined.

(** The tie goes to whichever comes first in record order. *)
Example tie_first_in_order :
  summarize [OK; lit "BROKEN"; FAIL] =
    Ok {| status := lit "BROKEN"; detail := unknown_message |}
  /\ summarize [OK; FAIL; lit "BROKEN"] =
    Ok {| status := FAIL; detail := lit "检测存在失败项，请优先解决关键问题。" |}.
Proof. split; reflexivity. Qed.

(** ** The fixed battery *)

(** C5.  In a returned report the summary is FAIL exactly when the pip
    command did not succeed: if it succeeded the pip record is OK and the
    summary is OK or WARN, whatever node, npm, the GPU probe and the
    secrets-file probe found; if it did not, the pip record and the summary
    are both FAIL. *)
Theorem only_pip_failure_is_fatal
        (w : World) (t : Trace) (report : DiagnosticResult)
        (Hrun : result run_env_diagnostics w t = Ok report) :
  exists pip summary,
    dict_get report (lit "pip") = Some pip
    /\ dict_get report (lit "summary") = Some summary
    /\ (command_succeeds w (PIP_VERSION w) = true ->
        status pip = OK /\ (status summary = OK \/ status summary = WARN))
    /\ (command_succeeds w (PIP_VERSION w) = false ->
        status pip = FAIL /\ status summary = FAIL).
Proof.
  destruct (result_inv _ _ _ _ Hrun) as [t' Hrun'].
  destruct (run_inv w t t' report Hrun')
    as (sys & py & node & npm & pip & gpu & env & summary & -> & Hsys & Hpy
        & Hnode & Hnpm & Hpip & Hgpu & Henv & Hsum).
  exists pip, summary.
  split; [reflexivity|]. split; [reflexivity|].
  rewrite Hsys, Hpy, Hnode, Hnpm, Hpip in Hsum. rewrite Hpip.
  split; intros Hp; rewrite Hp in *;
    (split; [reflexivity|]);
    destruct (command_succeeds w NODE_VERSION), (command_succeeds w NPM_VERSION),
      Hgpu as [Hg | Hg], Henv as [He | He];
    rewrite Hg, He in Hsum; vm_compute in Hsum; injection Hsum as <-;
    cbn [status]; auto.
Qed.

Lemma only_pip_failure_is_fatal_witness :
  result run_env_diagnostics world_no_pip [] = Ok report_no_pip
  /\ command_succeeds world_no_pip (PIP_VERSION world_no_pip) = false
  /\ exists pip summary,
       dict_get report_no_pip (lit "pip") = Some pip
       /\ dict_get report_no_pip (lit "summary") = Some summary
       /\ status pip = FAIL /\ status summary = FAIL.
Proof.
  split; [reflexivity|]. split; [reflexivity|].
  destruct (only_pip_failure_is_fatal world_no_pip [] report_no_pip eq_refl)
    as (pip & summary & Hpip & Hsum & _ & Hfail).
  exists pip, summary. split; [exact Hpip|]. split; [exact Hsum|].
  apply Hfail. reflexivity.
Defined.

(** C6.  A returned report holds exactly the records [system], [python],
    [node], [npm], [pip], [gpu], [env_file], [summary], in this order,
    whichever probes failed; and a report is returned in every world whose
    faults are of the classes the probes catch. *)
Theorem report_names_fixed (w : World) (t : Trace) :
  (forall report,
      result run_env_diagnostics w t = Ok report ->
      map fst report = report_names)
  /\ (faults_handled w = true ->
      exists report,
        result run_env_diagnostics w t = Ok report
        /\ map fst report = report_names).
Proof.
  assert (Hnames : forall report,
             result run_env_diagnostics w t = Ok report ->
             map fst report = report_names).
  { intros report Hrun.
    destruct (result_inv _ _ _ _ Hrun) as [t' Hrun'].
    destruct (run_inv w t t' report Hrun')
      as (sys & py & node & npm & pip & gpu & env & summary & -> & _).
    reflexivity. }
  split; [exact Hnames|].
  intros Hh. destruct (run_returns w t Hh) as [report Hrun].
  exists report. split; [exact Hrun | apply Hnames; exact Hrun].
Qed.

Lemma report_names_fixed_witness :
  faults_handled world_no_pip = true
  /\ result run_env_diagnostics world_no_pip [] = Ok report_no_pip
  /\ map fst report_no_pip = report_names
  /\ exists report,
       result run_env_diagnostics world_no_pip [] = Ok report
       /\ map fst report = report_names.
Proof.
  split; [reflexivity|]. split; [reflexivity|]. split.
  - apply (proj1 (report_names_fixed world_no_pip []) report_no_pip).
    reflexivity.
  - apply (proj2 (report_names_fixed world_no_pip [])).
    reflexivity.
Defined.

(** ** The command runner *)

(** The classes [except (FileNotFoundError, subprocess.SubprocessError)]
    catches. *)
Lemma caught_classes (e : exn) :
  caught_by [FileNotFoundError; SubprocessError] e = true <->
  In (exn_class e)
     [FileNotFoundError; SubprocessError; TimeoutExpired; CalledProcessError].
Proof.
  destruct e as [c msg]. cbn [exn_class].
  destruct c; (split; [intros H; first [discriminate H | cbn [In]; auto 6]
                      | intros H; first [reflexivity | cbn [In] in H;
                          repeat (destruct H as [H|H]; [discriminate H|]);
                          destruct H]]).
Qed.

(** What the runner does with an exception of [subprocess.run]. *)
Lemma run_command_fault (w : World) (t : Trace) (cmd : list str) (e : exn) :
  spawn_fault (spawn w cmd) = Some e ->
  result (_run_command cmd) w t
  = if caught_by [FileNotFoundError; SubprocessError] e
    then Ok (false, exn_str e) else Raise e.
Proof.
  intros He. unfold result. rewrite run_command_eq. cbn [fst].
  destruct (spawn w cmd) as [p|msg|msg|e']; cbn [spawn_fault] in He;
    try discriminate; injection He as <-; reflexivity.
Qed.

Lemma run_command_uncaught_classes (w : World) (t : Trace) (cmd : list str) (e : exn) :
  spawn_fault (spawn w cmd) = Some e ->
  In (exn_class e) [PermissionError; NotADirectoryError; UnicodeDecodeError] ->
  result (_run_command cmd) w t = Raise e.
Proof.
  destruct e as [c msg]. intros He Hin. rewrite (run_command_fault w t cmd _ He).
  cbn [exn_class In] in Hin.
  destruct Hin as [<-|[<-|[<-|[]]]]; reflexivity.
Qed.

(** C2, as the code has it.  When [subprocess.run] returns a completed
    process the runner gives (exit status is zero, trimmed stdout or else
    trimmed stderr).  When it raises, the runner gives (False, description) if
    the exception is a [FileNotFoundError] or a [SubprocessError], that is of
    class [FileNotFoundError], [SubprocessError], [TimeoutExpired] or
    [CalledProcessError], and raises it to the caller otherwise: so for
    [PermissionError], [NotADirectoryError] and [UnicodeDecodeError]. *)
Theorem run_command_converts_caught_faults
        (w : World) (t : Trace) (cmd : list str) :
  (forall p, spawn w cmd = Exited p ->
     result (_run_command cmd) w t =
       Ok ((returncode p =? 0)%Z, str_or (strip (stdout p)) (strip (stderr p))))
  /\ (forall e, spawn_fault (spawn w cmd) = Some e ->
       caught_by [FileNotFoundError; SubprocessError] e = true ->
       result (_run_command cmd) w t = Ok (false, exn_str e))
  /\ (forall e, spawn_fault (spawn w cmd) = Some e ->
       caught_by [FileNotFoundError; SubprocessError] e = false ->
       result (_run_command cmd) w t = Raise e)
  /\ (forall e,
        caught_by [FileNotFoundError; SubprocessError] e = true <->
        In (exn_class e)
           [FileNotFoundError; SubprocessError; TimeoutExpired; CalledProcessError])
  /\ (forall e, spawn_fault (spawn w cmd) = Some e ->
       In (exn_class e) [PermissionError; NotADirectoryError; UnicodeDecodeError] ->
       result (_run_command cmd) w t = Raise e).
Proof.
  split; [|split; [|split; [|split]]].
  - intros p Hp. unfold result. rewrite run_command_eq, Hp. reflexivity.
  - intros e He Hc. rewrite (run_command_fault w t cmd e He), Hc. reflexivity.
  - intros e He Hc. rewrite (run_command_fault w t cmd e He), Hc. reflexivity.
  - apply caught_classes.
  - apply run_command_uncaught_classes.
Qed.

Lemma run_command_converts_caught_faults_witness :
  (spawn_fault (spawn world_plain NVIDIA_SMI) = Some nvidia_smi_not_found
   /\ caught_by [FileNotFoundError; SubprocessError] nvidia_smi_not_found = true
   /\ result (_run_command NVIDIA_SMI) world_plain []
      = Ok (false, exn_str nvidia_smi_not_found))
  /\ (spawn world_plain NODE_VERSION = exited 0 (lit "v1.0" ++ [LF])
      /\ result (_run_command NODE_VERSION) world_plain [] = Ok (true, lit "v1.0"))
  /\ (spawn_fault (spawn world_node_denied NODE_VERSION) = Some node_permission_denied
      /\ caught_by [FileNotFoundError; SubprocessError] node_permission_denied = false
      /\ result (_run_command NODE_VERSION) world_node_denied []
         = Raise node_permission_denied).
Proof.
  split; [|split].
  - split; [reflexivity|]. split; [reflexivity|].
    exact (proj1 (proj2 (run_command_converts_caught_faults
                           world_plain [] NVIDIA_SMI))
             nvidia_smi_not_found eq_refl eq_refl).
  - split; [reflexivity|].
    apply (proj1 (run_command_converts_caught_faults world_plain [] NODE_VERSION)
             {| returncode := 0; stdout := lit "v1.0" ++ [LF]; stderr := [] |}).
    reflexivity.
  - split; [reflexivity|]. split; [reflexivity|].
    exact (proj1 (proj2 (proj2 (run_command_converts_caught_faults
                                  world_node_denied [] NODE_VERSION)))
             node_permission_denied eq_refl eq_refl).
Defined.

(** C2 fails as stated: a binary that is found but may not be executed makes
    [subprocess.run] raise [PermissionError], an [OSError] that is neither a
    [FileNotFoundError] nor a [SubprocessError]; the runner returns no pair
    and the exception reaches the caller. *)
Lemma run_command_permission_error_propagates :
  spawn_fault (spawn world_node_denied NODE_VERSION)
    = Some {| exn_class := PermissionError;
              exn_str := lit "[Errno 13] Permission denied: 'node'" |}
  /\ result (_run_command NODE_VERSION) world_node_denied []
    = Raise {| exn_class := PermissionError;
               exn_str := lit "[Errno 13] Permission denied: 'node'" |}
  /\ ~ exists pair, result (_run_command NODE_VERSION) world_node_denied [] = Ok pair.
Proof.
  split; [reflexivity|]. split; [reflexivity|].
  intros [pair H]. vm_compute in H. discriminate.
Qed.

(** ** Totality of the engine *)

(** C3, as the code has it.  The engine returns a report exactly when no
    fault leaves a probe ([first_uncaught_fault] is [None]): the node, npm
    and pip commands raise at most [FileNotFoundError] or [SubprocessError],
    the module lookup answers, [nvidia-smi], spawned only without torch,
    raises at most the same two classes, the existence test answers, and the
    read of [.env], made only when the file exists, raises at most
    [OSError].  The report then has all eight records, every status is OK,
    WARN or FAIL, and each fault that was caught shows as WARN (node, npm,
    gpu, env_file) or FAIL (pip).  The engine itself catches nothing:
    otherwise the first fault that leaves a probe, in the order of the run,
    leaves the engine and no report is returned. *)
Theorem engine_total_on_caught_faults (w : World) (t : Trace) :
  (first_uncaught_fault w = None ->
   exists report,
     result run_env_diagnostics w t = Ok report
     /\ map fst report = report_names
     /\ (forall s, In s (statuses_of report) -> kind_of s <> None)
     /\ (forall e node, spawn_fault (spawn w NODE_VERSION) = Some e ->
         dict_get report (lit "node") = Some node -> status node = WARN)
     /\ (forall e npm, spawn_fault (spawn w NPM_VERSION) = Some e ->
         dict_get report (lit "npm") = Some npm -> status npm = WARN)
     /\ (forall e pip, spawn_fault (spawn w (PIP_VERSION w)) = Some e ->
         dict_get report (lit "pip") = Some pip -> status pip = FAIL)
     /\ (forall e gpu, find_spec w TORCH = Ok true ->
         torch_query_fault w = Some e ->
         dict_get report (lit "gpu") = Some gpu ->
         gpu = {| status := WARN;
                  detail := lit "PyTorch 存在但无法获取 GPU 信息: " ++ exn_str e |})
     /\ (forall e gpu, find_spec w TORCH = Ok false ->
         spawn_fault (spawn w NVIDIA_SMI) = Some e ->
         dict_get report (lit "gpu") = Some gpu -> status gpu = WARN)
     /\ (forall e env,
         path_exists w (path_join (PROJECT_ROOT w) (lit ".env")) = Ok true ->
         path_read_text w (path_join (PROJECT_ROOT w) (lit ".env")) = Raise e ->
         dict_get report (lit "env_file") = Some env ->
         env = {| status := WARN;
                  detail := lit "读取 .env 文件失败: " ++ exn_str e |}))
  /\ (forall e, first_uncaught_fault w = Some e ->
      result run_env_diagnostics w t = Raise e).
Proof.
  pose proof (run_outcome w t) as Hout.
  split.
  - intros Hnone. rewrite Hnone in Hout. destruct Hout as [report Hrun].
    exists report. split; [exact Hrun|].
    destruct (result_inv _ _ _ _ Hrun) as [t' Hrun'].
    destruct (run_inv w t t' report Hrun')
      as (sys & py & node & npm & pip & gpu & env & summary & Hrep & Hsys & Hpy
          & Hnode & Hnpm & Hpip & Hgpu & Henv & Hsum).
    destruct (run_inv_full w t t' report Hrun')
      as (no & mo & po & gpu' & env' & summary' & t4 & _ & _ & _
          & Hgpu' & Henv' & Hrep' & _).
    assert (Hsame : gpu' = gpu /\ env' = env).
    { rewrite Hrep in Hrep'. injection Hrep' as _ _ _ _ _ <- <- _. auto. }
    destruct Hsame as [-> ->]. clear Hrep'. subst report.
    split; [reflexivity|].
    split; [|split; [|split; [|split; [|split; [|split]]]]].
    + assert (Hs : exists k, status summary = kind_name k).
      { rewrite Hsys, Hpy, Hnode, Hnpm, Hpip in Hsum.
        destruct (command_succeeds w NODE_VERSION),
          (command_succeeds w NPM_VERSION), (command_succeeds w (PIP_VERSION w)),
          Hgpu as [Hg | Hg], Henv as [He | He];
          rewrite Hg, He in Hsum; vm_compute in Hsum; injection Hsum as <-;
          ((exists KOk; reflexivity) || (exists KWarn; reflexivity)
           || (exists KFail; reflexivity)). }
      destruct Hs as [k Hs].
      intros s Hin. cbn [statuses_of map snd In] in Hin.
      rewrite Hsys, Hpy, Hnode, Hnpm, Hpip, Hs in Hin.
      destruct (command_succeeds w NODE_VERSION),
        (command_succeeds w NPM_VERSION), (command_succeeds w (PIP_VERSION w)),
        Hgpu as [Hg | Hg], Henv as [He | He], k;
        rewrite Hg, He in Hin;
        repeat (destruct Hin as [<- | Hin]; [discriminate|]); destruct Hin.
    + intros e r He [= <-]. rewrite Hnode, (faulted_command_fails _ _ _ He). reflexivity.
    + intros e r He [= <-]. rewrite Hnpm, (faulted_command_fails _ _ _ He). reflexivity.
    + intros e r He [= <-]. rewrite Hpip, (faulted_command_fails _ _ _ He). reflexivity.
    + intros e r Hspec Hq [= <-].
      match type of Hgpu' with _ w ?tg = _ =>
        pose proof (gpu_torch_fault_warn w tg e Hspec Hq) as Hr end.
      unfold result in Hr. rewrite Hgpu' in Hr. cbn [fst] in Hr. congruence.
    + intros e r Hspec Hf [= <-].
      match type of Hgpu' with _ w ?tg = _ =>
        rewrite (gpu_smi_fault_warn w tg e gpu Hspec Hf) end; [reflexivity|].
      unfold result. rewrite Hgpu'. reflexivity.
    + intros e r Hex Hread [= <-].
      apply (env_read_fault_warn (default_config w) w t4 e env Hex Hread).
      unfold result. rewrite Henv'. reflexivity.
  - intros e He. rewrite He in Hout. exact Hout.
Qed.

Lemma engine_total_on_caught_faults_witness :
  (first_uncaught_fault world_plain = None
   /\ exists report,
        result run_env_diagnostics world_plain [] = Ok report
        /\ map fst report = report_names)
  /\ (first_uncaught_fault world_torch_smi_denied = None
      /\ exists report,
           result run_env_diagnostics world_torch_smi_denied [] = Ok report
           /\ map fst report = report_names)
  /\ (first_uncaught_fault world_node_denied = Some node_permission_denied
      /\ result run_env_diagnostics world_node_denied [] = Raise node_permission_denied).
Proof.
  split; [|split]; (split; [reflexivity|]).
  - destruct (proj1 (engine_total_on_caught_faults world_plain []) eq_refl)
      as (report & Hrun & Hnames & _).
    exists report. split; [exact Hrun | exact Hnames].
  - destruct (proj1 (engine_total_on_caught_faults world_torch_smi_denied []) eq_refl)
      as (report & Hrun & Hnames & _).
    exists report. split; [exact Hrun | exact Hnames].
  - exact (proj2 (engine_total_on_caught_faults world_node_denied [])
             node_permission_denied eq_refl).
Defined.

(** C3 fails as stated: when [.env] exists but is not valid UTF-8, reading it
    raises [UnicodeDecodeError], which is no [OSError]; the probe lets it
    through, the engine does not catch it, and no report is returned.  The
    same happens when the node binary may not be executed. *)
Lemma engine_aborts_on_uncaught_fault :
  (path_exists world_bad_env (path_join (PROJECT_ROOT world_bad_env) (lit ".env"))
     = Ok true
   /\ ~ exists report, result run_env_diagnostics world_bad_env [] = Ok report)
  /\ ~ exists report, result run_env_diagnostics world_node_denied [] = Ok report.
Proof.
  split; [split; [reflexivity|]|]; intros [report H]; vm_compute in H; discriminate.
Qed.

(** ** The GPU probe *)

(** C7.  When torch is importable the probe spawns nothing and returns a
    record: OK with the name of device 0 when CUDA is available, WARN when it
    is not, and WARN with the fault's description when the import or a query
    raises.  A process is spawned only when torch is not importable, and then
    it is [nvidia-smi], once. *)
Theorem gpu_probe_strict_fallback (w : World) (t : Trace) :
  (find_spec w TORCH = Ok true ->
     (exists r, result _detect_gpu_status w t = Ok r)
     /\ (exists new, events _detect_gpu_status w t = t ++ new
                     /\ forallb (fun ev => negb (is_spawn ev)) new = true)
     /\ (forall name,
           import_module w TORCH = Ok tt ->
           cuda_is_available w = Ok true ->
           cuda_get_device_name w 0%Z = Ok name ->
           result _detect_gpu_status w t
           = Ok {| status := OK; detail := lit "检测到 GPU: " ++ name |})
     /\ (import_module w TORCH = Ok tt ->
         cuda_is_available w = Ok false ->
         exists r, result _detect_gpu_status w t = Ok r /\ status r = WARN)
     /\ (forall e,
           torch_query_fault w = Some e ->
           result _detect_gpu_status w t
           = Ok {| status := WARN;
                   detail := lit "PyTorch 存在但无法获取 GPU 信息: " ++ exn_str e |}))
  /\ (forall new,
        events _detect_gpu_status w t = t ++ new ->
        existsb is_spawn new = true ->
        find_spec w TORCH = Ok false)
  /\ (find_spec w TORCH = Ok false ->
      events _detect_gpu_status w t = t ++ [EvFindSpec TORCH; EvSpawn NVIDIA_SMI]).
Proof.
  unfold result, events, torch_query_fault.
  unfold _detect_gpu_status, bind, try_except, call, ret.
  split; [|split].
  - intros ->.
    destruct (import_module w TORCH) as [[]|e1];
      [destruct (cuda_is_available w) as [[|]|e2];
       [destruct (cuda_get_device_name w 0%Z) as [name|e3]| |]|];
      try rewrite caught_by_exception; cbn [fst snd];
      (split; [eauto|]);
      (split; [rewrite <- ?app_assoc; eexists; split; reflexivity|]);
      repeat split; try congruence; try discriminate; eauto.
  - intros new Hev Hsp.
    destruct (find_spec w TORCH) as [[|]|e0]; [exfalso| reflexivity |exfalso].
    + destruct (import_module w TORCH) as [[]|e1];
        [destruct (cuda_is_available w) as [[|]|e2];
         [destruct (cuda_get_device_name w 0%Z) as [name|e3]| |]|];
        try rewrite caught_by_exception in Hev; cbn [fst snd] in Hev;
        rewrite <- ?app_assoc in Hev; apply app_inv_head in Hev; subst new;
        discriminate.
    + cbn [snd] in Hev. apply app_inv_head in Hev. subst new. discriminate.
  - intros ->. rewrite run_command_eq.
    destruct (spawn w NVIDIA_SMI) as [p|msg|msg|e]; cbn [snd];
      try (rewrite <- app_assoc; reflexivity).
    + destruct (returncode p =? 0)%Z; rewrite <- app_assoc; reflexivity.
    + destruct (caught_by _ e); rewrite <- app_assoc; reflexivity.
Qed.

Lemma gpu_probe_strict_fallback_witness :
  find_spec (world_torch (Ok true) (Ok (lit "A100"))) TORCH = Ok true
  /\ result _detect_gpu_status (world_torch (Ok true) (Ok (lit "A100"))) []
     = Ok {| status := OK; detail := lit "检测到 GPU: A100" |}
  /\ exists new,
       events _detect_gpu_status (world_torch (Ok true) (Ok (lit "A100"))) []
       = [] ++ new
       /\ forallb (fun ev => negb (is_spawn ev)) new = true.
Proof.
  split; [reflexivity|].
  destruct (proj1 (gpu_probe_strict_fallback
                     (world_torch (Ok true) (Ok (lit "A100"))) []) eq_refl)
    as (_ & Hev & Hok & _).
  split; [|exact Hev].
  apply (Hok (lit "A100")); reflexivity.
Defined.

Example gpu_query_fault_is_warn :
  result _detect_gpu_status
    (world_torch (Raise {| exn_class := RuntimeError; exn_str := lit "no driver" |})
                 (Ok [])) []
  = Ok {| status := WARN; detail := lit "PyTorch 存在但无法获取 GPU 信息: no driver" |}.
Proof. reflexivity. Qed.

(** ** The secrets-file probe *)



Lemma env_probe_scanned (cfg : HeartLinkConfig) (w : World) (t : Trace) (content : str) :
  path_exists w (env_path cfg) = Ok true ->
  path_read_text w (env_path cfg) = Ok content ->
  exists r,
    result (_check_env_file cfg) w t = Ok r
    /\ status r = spec_env_status content.
Proof.
  intros Hex Hread.
  unfold result, _check_env_file, bind, try_except, call, ret, lift.
  rewrite Hex. cbn [negb]. rewrite Hread.
  rewrite scan_env_lines_find. unfold spec_env_status.
  destruct (find _ (splitlines content)) as [l|];
    [destruct (truthy (after_first EQUALS (strip l)))|];
    eexists; split; reflexivity.
Qed.





(** The four cases the specification lists for the probe. *)
Example env_probe_listed_cases :
  (exists d, result (_check_env_file the_config)
                    (world_with_env (Ok (lit "OPENAI_API_KEY=abc123" ++ [LF]))) []
             = Ok {| status := OK; detail := d |})
  /\ (exists d, result (_check_env_file the_config)
                       (world_with_env (Ok (lit "OPENAI_API_KEY=" ++ [LF]))) []
                = Ok {| status := WARN; detail := d |})
  /\ (exists d, result (_check_env_file the_config)
                       (world_with_env (Ok (lit "OTHER=1" ++ [LF]))) []
                = Ok {| status := WARN; detail := d |})
  /\ (exists d, result (_check_env_file the_config) world_plain []
                = Ok {| status := WARN; detail := d |}).
Proof. repeat split; eexists; reflexivity. Qed.

(** Only the first key line counts. *)
Example env_probe_stops_at_first_match :
  exists d,
    result (_check_env_file the_config)
           (world_with_env
              (Ok (lit "OPENAI_API_KEY=" ++ [LF] ++ lit "OPENAI_API_KEY=abc"))) []
    = Ok {| status := WARN; detail := d |}.
Proof. eexists; reflexivity. Qed.

(** ** Trimming *)

Lemma lstrip_spaces (pre s : str) :
  forallb isspace pre = true -> lstrip (pre ++ s) = lstrip s.
Proof.
  induction pre as [|c pre IH]; intros H; [reflexivity|].
  cbn [forallb] in H. apply andb_true_iff in H. destruct H as [Hc H].
  cbn [app lstrip]. rewrite Hc. apply IH. exact H.
Qed.

Lemma lstrip_app_fixed (a b : str) : lstrip b = b -> lstrip (a ++ b) = lstrip a ++ b.
Proof.
  intros Hb. induction a as [|c a IH]; [exact Hb|].
  cbn [app lstrip]. destruct (isspace c); [exact IH | reflexivity].
Qed.

Lemma lstrip_nil (s : str) : lstrip s = [] <-> forallb isspace s = true.
Proof.
  induction s as [|c s IH]; [split; reflexivity|].
  cbn [lstrip forallb]. destruct (isspace c); simpl; [exact IH|].
  split; discriminate.
Qed.

Lemma lstrip_split (s : str) :
  exists pre, s = pre ++ lstrip s /\ forallb isspace pre = true.
Proof.
  induction s as [|c s IH].
  - exists []. split; reflexivity.
  - cbn [lstrip]. destruct (isspace c) eqn:E.
    + destruct IH as (pre & Hs & Hpre). exists (c :: pre). split.
      * cbn [app]. rewrite <- Hs. reflexivity.
      * cbn [forallb]. rewrite E. exact Hpre.
    + exists []. split; reflexivity.
Qed.

Lemma forallb_rev {A} (f : A -> bool) (l : list A) :
  forallb f (rev l) = forallb f l.
Proof.
  induction l as [|x l IH]; [reflexivity|].
  cbn [rev forallb]. rewrite forallb_app, IH. cbn [forallb].
  rewrite andb_true_r. apply andb_comm.
Qed.

Lemma rstrip_nil (v : str) : rstrip v = [] <-> forallb isspace v = true.
Proof.
  unfold rstrip. rewrite <- (forallb_rev isspace v), <- lstrip_nil.
  split; intros H.
  - apply (f_equal (@rev N)) in H. rewrite rev_involutive in H. exact H.
  - rewrite H. reflexivity.
Qed.

(** [rstrip] removes a run of whitespace at the end and nothing else. *)
Lemma rstrip_split (v : str) :
  exists tail, v = rstrip v ++ tail /\ forallb isspace tail = true.
Proof.
  unfold rstrip. destruct (lstrip_split (rev v)) as (pre & Hs & Hpre).
  exists (rev pre). split.
  - rewrite <- rev_app_distr, <- Hs, rev_involutive. reflexivity.
  - rewrite forallb_rev. exact Hpre.
Qed.

(** A key line, possibly indented: trimming it leaves the prefix and the
    value without its trailing whitespace. *)
Lemma strip_key_line (pre v : str) :
  forallb isspace pre = true ->
  strip (pre ++ KEY_PREFIX ++ v) = KEY_PREFIX ++ rstrip v.
Proof.
  intros Hpre. unfold strip. rewrite (lstrip_spaces pre _ Hpre).
  change (lstrip (KEY_PREFIX ++ v)) with (KEY_PREFIX ++ v).
  unfold rstrip. rewrite rev_app_distr.
  rewrite (lstrip_app_fixed (rev v) (rev KEY_PREFIX) eq_refl).
  rewrite rev_app_distr, rev_involutive. reflexivity.
Qed.

(** C9.  Let the first key line of [.env] be some whitespace, the prefix
    [OPENAI_API_KEY=] and a text [v].  The value the loop extracts is [v]
    without its trailing whitespace and is otherwise untouched (leading and
    inner whitespace stay).  So a [v] of whitespace only gives the empty
    value and WARN, and a [v] with a character that is not whitespace gives
    OK. *)
Theorem whitespace_only_value_is_empty
        (cfg : HeartLinkConfig) (w : World) (t : Trace)
        (content : str) (before after : list str) (pre v : str)
        (Hexists : path_exists w (env_path cfg) = Ok true)
        (Hread : path_read_text w (env_path cfg) = Ok content)
        (Hlines : splitlines content = before ++ (pre ++ KEY_PREFIX ++ v) :: after)
        (Hbefore : forall l, In l before -> startswith KEY_PREFIX (strip l) = false)
        (Hpre : forallb isspace pre = true) :
  list_getitem (split1 EQUALS (strip (pre ++ KEY_PREFIX ++ v))) 1 = Ok (rstrip v)
  /\ (exists tail, v = rstrip v ++ tail /\ forallb isspace tail = true)
  /\ (forallb isspace v = true <-> rstrip v = [])
  /\ exists r,
       result (_check_env_file cfg) w t = Ok r
       /\ status r = if forallb isspace v then WARN else OK.
Proof.
  rewrite (strip_key_line pre v Hpre).
  split; [apply key_value_after_prefix|].
  split; [apply rstrip_split|].
  split; [symmetry; apply rstrip_nil|].
  destruct (env_probe_scanned cfg w t content Hexists Hread) as (r & Hr & Hs).
  exists r. split; [exact Hr|]. rewrite Hs.
  unfold spec_env_status. rewrite Hlines, (find_skip _ before _ Hbefore).
  cbn [find]. rewrite (strip_key_line pre v Hpre), startswith_app.
  rewrite (strip_key_line pre v Hpre), after_first_prefix.
  destruct (forallb isspace v) eqn:E.
  - apply rstrip_nil in E. rewrite E. reflexivity.
  - destruct (rstrip v) eqn:Er; [|reflexivity].
    apply rstrip_nil in Er. congruence.
Qed.

Lemma whitespace_only_value_is_empty_witness :
  (exists r,
      result (_check_env_file the_config)
             (world_with_env (Ok (lit "# key" ++ [LF] ++ lit "OPENAI_API_KEY=   "))) []
      = Ok r
      /\ status r = WARN)
  /\ list_getitem
       (split1 EQUALS (strip (lit "  " ++ KEY_PREFIX ++ lit "  a b  "))) 1
     = Ok (lit "  a b")
  /\ (exists r,
      result (_check_env_file the_config)
             (world_with_env (Ok (lit "  OPENAI_API_KEY=  a b  " ++ [LF]))) []
      = Ok r
      /\ status r = OK).
Proof.
  split; [|split].
  - destruct (whitespace_only_value_is_empty
                the_config
                (world_with_env (Ok (lit "# key" ++ [LF] ++ lit "OPENAI_API_KEY=   ")))
                [] (lit "# key" ++ [LF] ++ lit "OPENAI_API_KEY=   ")
                [lit "# key"] [] [] (lit "   ")
                eq_refl eq_refl eq_refl)
      as (_ & _ & _ & Hr).
    + intros l [<-|[]]. reflexivity.
    + reflexivity.
    + exact Hr.
  - apply (whitespace_only_value_is_empty
             the_config
             (world_with_env (Ok (lit "  OPENAI_API_KEY=  a b  " ++ [LF])))
             [] (lit "  OPENAI_API_KEY=  a b  " ++ [LF])
             [] [] (lit "  ") (lit "  a b  ")
             eq_refl eq_refl eq_refl).
    + intros l [].
    + reflexivity.
  - destruct (whitespace_only_value_is_empty
                the_config
                (world_with_env (Ok (lit "  OPENAI_API_KEY=  a b  " ++ [LF])))
                [] (lit "  OPENAI_API_KEY=  a b  " ++ [LF])
                [] [] (lit "  ") (lit "  a b  ")
                eq_refl eq_refl eq_refl)
      as (_ & _ & _ & Hr).
    + intros l [].
    + reflexivity.
    + exact Hr.
Defined.

(** ** The coloured view *)

Lemma eqb_sym (a b : str) : PyStr.eqb a b = PyStr.eqb b a.
Proof.
  apply eq_true_iff_eq. rewrite !eqb_eq. split; congruence.
Qed.

(** [COLOR_MAP.get(status, COLOR_MAP["RESET"])] is the specification's
    colour: the key [RESET] itself maps to the reset code. *)
Lemma color_lookup (s : str) : dict_get_default COLOR_MAP s RESET = spec_color s.
Proof.
  unfold dict_get_default, COLOR_MAP, dict_get, spec_color, kind_of.
  rewrite (eqb_sym (lit "OK") s), (eqb_sym (lit "WARN") s), (eqb_sym (lit "FAIL") s).
  change (lit "OK") with OK. change (lit "WARN") with WARN. change (lit "FAIL") with FAIL.
  destruct (PyStr.eqb s OK); [reflexivity|].
  destruct (PyStr.eqb s WARN); [reflexivity|].
  destruct (PyStr.eqb s FAIL); [reflexivity|].
  destruct (PyStr.eqb (lit "RESET") s); reflexivity.
Qed.

Lemma display_results_cons (name : str) (d : StatusDetail) (rest : DiagnosticResult) :
  display_results ((name, d) :: rest) =
  match display_results rest with
  | Ok printed =>
      Ok (display_line (dict_get_default COLOR_MAP (status d) RESET) RESET name d
            :: printed)
  | Raise e => Raise e
  end.
Proof. reflexivity. Qed.

(** C8, as the code has it.  One text is printed per record, in report
    order: the colour of the status (green for OK, yellow for WARN, red for
    FAIL, the reset code for anything else), the name left-aligned in a field
    of ten characters, that is followed by spaces up to that width and never
    cut, then the status in brackets, the detail, and the reset code. *)
Theorem colored_lines_left_aligned (results : DiagnosticResult) :
  display_results results =
    Ok (map (fun kv =>
               spec_color (status (snd kv)) ++ ljust 10 (fst kv) ++ lit " ["
               ++ status (snd kv) ++ lit "] " ++ detail (snd kv) ++ RESET)
            results)
  /\ spec_color OK = GREEN /\ spec_color WARN = YELLOW /\ spec_color FAIL = RED
  /\ (forall s, s <> OK -> s <> WARN -> s <> FAIL -> spec_color s = RESET)
  /\ (forall name,
        ljust 10 name = name ++ repeat SPACE (10 - List.length name)
        /\ List.length (ljust 10 name) = Nat.max 10 (List.length name)).
Proof.
  split; [|repeat split].
  - induction results as [|[name d] rest IH]; [reflexivity|].
    rewrite display_results_cons, IH, color_lookup. reflexivity.
  - intros s H1 H2 H3. unfold spec_color.
    rewrite (proj2 (kind_of_none s)); auto.
  - unfold ljust. rewrite length_app, repeat_length. lia.
Qed.

Lemma colored_lines_left_aligned_witness :
  lit "SKIPPED" <> OK
  /\ spec_color (lit "SKIPPED") = RESET
  /\ display_results [(lit "node", {| status := OK; detail := lit "v18" |})]
     = Ok [GREEN ++ lit "node       [OK] v18" ++ RESET].
Proof.
  split; [discriminate|]. split.
  - apply (proj1 (proj2 (proj2 (proj2 (proj2 (colored_lines_left_aligned []))))));
      discriminate.
  - apply (proj1 (colored_lines_left_aligned
                    [(lit "node", {| status := OK; detail := lit "v18" |})])).
Defined.

(** C8 fails as stated: the name is not padded on its left.  For the record
    [node] the printed text starts, after the colour, with the name and six
    spaces, not with six spaces and the name. *)
Lemma colored_name_not_left_padded :
  display_results [(lit "node", {| status := OK; detail := lit "v18" |})]
    = Ok [GREEN ++ lit "node      " ++ lit " [OK] v18" ++ RESET]
  /\ display_results [(lit "node", {| status := OK; detail := lit "v18" |})]
    <> Ok [GREEN ++ rjust 10 (lit "node") ++ lit " [OK] v18" ++ RESET].
Proof.
  split; [reflexivity|]. intros H. vm_compute in H. discriminate.
Qed.

(* ================================================================= *)
(** * Further properties of the code *)

(** ** The engine: which events *)

Lemma gpu_spawns (w : World) (t : Trace) :
  filter is_spawn (events _detect_gpu_status w t)
  = filter is_spawn t
    ++ match find_spec w TORCH with
       | Ok false => [EvSpawn NVIDIA_SMI]
       | _ => []
       end.
Proof.
  unfold events, _detect_gpu_status, bind, try_except, call, ret.
  destruct (find_spec w TORCH) as [[|]|e]; cbn [snd].
  - destruct (import_module w TORCH) as [[]|e1];
      [destruct (cuda_is_available w) as [[|]|e2];
       [destruct (cuda_get_device_name w 0%Z) as [name|e3]| |]|];
      try rewrite caught_by_exception; cbn [snd];
      rewrite ?filter_app; cbn [filter is_spawn]; rewrite ?app_nil_r; reflexivity.
  - rewrite run_command_eq.
    destruct (spawn w NVIDIA_SMI) as [p|msg|msg|e]; cbn [snd];
      try (rewrite !filter_app; cbn [filter is_spawn];
           rewrite ?app_nil_r; reflexivity).
    + destruct (returncode p =? 0)%Z; cbn [snd]; rewrite !filter_app;
        cbn [filter is_spawn]; rewrite ?app_nil_r; reflexivity.
    + destruct (caught_by _ e); cbn [snd]; rewrite !filter_app;
        cbn [filter is_spawn]; rewrite ?app_nil_r; reflexivity.
  - rewrite filter_app. cbn [filter is_spawn]. reflexivity.
Qed.

Lemma env_events (cfg : HeartLinkConfig) (w : World) (t : Trace) :
  events (_check_env_file cfg) w t
  = t ++ EvExists (env_path cfg)
         :: match path_exists w (env_path cfg) with
            | Ok true => [EvReadText (env_path cfg)]
            | _ => []
            end.
Proof.
  unfold events, _check_env_file, bind, try_except, call, ret, lift.
  destruct (path_exists w (env_path cfg)) as [[|]|e]; cbn [negb snd]; try reflexivity.
  destruct (path_read_text w (env_path cfg)) as [content|e].
  - destruct (scan_env_lines (splitlines content)) as [[|]|e];
      cbn [snd]; rewrite <- app_assoc; reflexivity.
  - destruct (caught_by [OSError] e); cbn [snd]; rewrite <- app_assoc; reflexivity.
Qed.


(** X1.  A run that returns a report has called [subprocess.run], through
    the command runner, for the three version commands node, npm and pip, in
    this order, then for [nvidia-smi] if and only if torch is not importable,
    and for nothing else.  (What the standard library starts on its own, as
    [platform.platform()] may do with uname, is not among these calls.) *)
Theorem engine_spawns_fixed_commands
        (w : World) (t : Trace) (report : DiagnosticResult)
        (Hrun : result run_env_diagnostics w t = Ok report) :
  filter is_spawn (events run_env_diagnostics w t)
  = filter is_spawn t
    ++ [EvSpawn NODE_VERSION; EvSpawn NPM_VERSION; EvSpawn (PIP_VERSION w)]
    ++ match find_spec w TORCH with
       | Ok false => [EvSpawn NVIDIA_SMI]
       | _ => []
       end.
Proof.
  destruct (result_inv _ _ _ _ Hrun) as [t' Hrun'].
  unfold events. rewrite Hrun'. cbn [snd].
  destruct (run_inv_full w t t' report Hrun')
    as (no & mo & po & gpu & env & summary & t4 & _ & _ & _ & Hgpu & Henv & _).
  pose proof (env_events (default_config w) w t4) as He.
  unfold events in He. rewrite Henv in He. cbn [snd] in He. rewrite He.
  pose proof (gpu_spawns w (((t ++ [EvSpawn NODE_VERSION]) ++ [EvSpawn NPM_VERSION])
                              ++ [EvSpawn (PIP_VERSION w)])) as Hg.
  unfold events in Hg. rewrite Hgpu in Hg. cbn [snd] in Hg.
  rewrite filter_app, Hg, !filter_app. cbn [filter is_spawn].
  destruct (path_exists w (env_path (default_config w))) as [[|]|e];
    cbn [filter is_spawn]; rewrite ?app_nil_r, <- ?app_assoc; reflexivity.
Qed.

Lemma engine_spawns_fixed_commands_witness :
  result run_env_diagnostics world_plain [] = Ok report_plain
  /\ filter is_spawn (events run_env_diagnostics world_plain [])
     = [EvSpawn NODE_VERSION; EvSpawn NPM_VERSION;
        EvSpawn (PIP_VERSION world_plain); EvSpawn NVIDIA_SMI].
Proof.
  split; [reflexivity|].
  apply (engine_spawns_fixed_commands world_plain [] report_plain).
  reflexivity.
Defined.



(** X3.  In a returned report the [gpu] and [env_file] records are exactly
    what the two probes return, the [system] record carries the platform
    string, and a command record that is OK carries the output of its
    command. *)
Theorem report_holds_probe_records
        (w : World) (t : Trace) (report : DiagnosticResult)
        (Hrun : result run_env_diagnostics w t = Ok report) :
  (exists gpu, dict_get report (lit "gpu") = Some gpu
               /\ result _detect_gpu_status w [] = Ok gpu)
  /\ (exists env, dict_get report (lit "env_file") = Some env
                  /\ result (_check_env_file (default_config w)) w [] = Ok env)
  /\ dict_get report (lit "system")
     = Some {| status := OK; detail := platform_platform w |}
  /\ (forall d, dict_get report (lit "node") = Some {| status := OK; detail := d |} ->
        result (_run_command NODE_VERSION) w [] = Ok (true, d))
  /\ (forall d, dict_get report (lit "npm") = Some {| status := OK; detail := d |} ->
        result (_run_command NPM_VERSION) w [] = Ok (true, d))
  /\ (forall d, dict_get report (lit "pip") = Some {| status := OK; detail := d |} ->
        result (_run_command (PIP_VERSION w)) w [] = Ok (true, d)).
Proof.
  destruct (result_inv _ _ _ _ Hrun) as [t' Hrun'].
  destruct (run_inv_full w t t' report Hrun')
    as (no & mo & po & gpu & env & summary & t4
        & Hnode & Hnpm & Hpip & Hgpu & Henv & -> & _).
  split; [|split; [|split; [|split; [|split]]]].
  - exists gpu. split; [reflexivity|].
    match type of Hgpu with _ w ?tg = _ =>
      rewrite (gpu_result_any_trace w [] tg) end.
    unfold result. rewrite Hgpu. reflexivity.
  - exists env. split; [reflexivity|].
    rewrite (env_result_any_trace _ w [] t4). unfold result. rewrite Henv. reflexivity.
  - reflexivity.
  - intros d Hd. cbn in Hd. injection Hd as Hd.
    unfold result. rewrite (run_command_result_any_trace NODE_VERSION w [] t), Hnode.
    cbn [fst]. destruct (command_succeeds w NODE_VERSION);
      [injection Hd as <-; reflexivity | discriminate].
  - intros d Hd. cbn in Hd. injection Hd as Hd.
    unfold result.
    rewrite (run_command_result_any_trace NPM_VERSION w [] (t ++ [EvSpawn NODE_VERSION])),
      Hnpm.
    cbn [fst]. destruct (command_succeeds w NPM_VERSION);
      [injection Hd as <-; reflexivity | discriminate].
  - intros d Hd. cbn in Hd. injection Hd as Hd.
    unfold result.
    rewrite (run_command_result_any_trace (PIP_VERSION w) w []
               ((t ++ [EvSpawn NODE_VERSION]) ++ [EvSpawn NPM_VERSION])), Hpip.
    cbn [fst]. destruct (command_succeeds w (PIP_VERSION w));
      [injection Hd as <-; reflexivity | discriminate].
Qed.

Lemma report_holds_probe_records_witness :
  result run_env_diagnostics world_plain [] = Ok report_plain
  /\ exists gpu, dict_get report_plain (lit "gpu") = Some gpu
                 /\ result _detect_gpu_status world_plain [] = Ok gpu.
Proof.
  split; [reflexivity|].
  apply (proj1 (report_holds_probe_records world_plain [] report_plain eq_refl)).
Defined.

(** ** The summary text and the version string *)

(** X4.  In a returned report the detail of the summary record is the
    message the source pairs with the summary's status; the fallback for an
    unknown status is never used. *)
Theorem summary_detail_is_canned
        (w : World) (t : Trace) (report : DiagnosticResult)
        (Hrun : result run_env_diagnostics w t = Ok report) :
  exists summary,
    dict_get report (lit "summary") = Some summary
    /\ In (status summary, detail summary) summary_messages
    /\ detail summary <> unknown_message.
Proof.
  destruct (result_inv _ _ _ _ Hrun) as [t' Hrun'].
  destruct (run_inv w t t' report Hrun')
    as (sys & py & node & npm & pip & gpu & env & summary & -> & Hsys & Hpy
        & Hnode & Hnpm & Hpip & Hgpu & Henv & Hsum).
  exists summary. split; [reflexivity|].
  rewrite Hsys, Hpy, Hnode, Hnpm, Hpip in Hsum.
  destruct (command_succeeds w NODE_VERSION), (command_succeeds w NPM_VERSION),
    (command_succeeds w (PIP_VERSION w)), Hgpu as [Hg | Hg], Henv as [He | He];
    rewrite Hg, He in Hsum; vm_compute in Hsum; injection Hsum as <-;
    (split; [vm_compute; tauto | vm_compute; discriminate]).
Qed.

Lemma summary_detail_is_canned_witness :
  result run_env_diagnostics world_no_pip [] = Ok report_no_pip
  /\ exists summary,
       dict_get report_no_pip (lit "summary") = Some summary
       /\ In (status summary, detail summary) summary_messages
       /\ detail summary <> unknown_message.
Proof.
  split; [reflexivity|].
  apply (summary_detail_is_canned world_no_pip [] report_no_pip).
  reflexivity.
Defined.

Lemma replace_char_spec (a b : N) (s : str) :
  a <> b ->
  ~ In a (replace_char a b s) /\ List.length (replace_char a b s) = List.length s.
Proof.
  intros Hab. unfold replace_char. split; [|apply length_map].
  intros Hin. apply in_map_iff in Hin. destruct Hin as (c & Hc & _).
  destruct (c =? a)%N eqn:E.
  - congruence.
  - apply N.eqb_neq in E. congruence.
Qed.

(** X5.  In a returned report the [python] record is OK and its detail is
    the interpreter's version string with every line feed turned into a
    space: it is as long as the version string, holds a space wherever the
    version string holds a line feed and the same character everywhere else,
    and so holds no line feed. *)
Theorem python_detail_has_no_line_feed
        (w : World) (t : Trace) (report : DiagnosticResult)
        (Hrun : result run_env_diagnostics w t = Ok report) :
  exists py,
    dict_get report (lit "python") = Some py
    /\ status py = OK
    /\ ~ In LF (detail py)
    /\ List.length (detail py) = List.length (sys_version w)
    /\ (forall i, nth_error (sys_version w) i = Some LF ->
          nth_error (detail py) i = Some SPACE)
    /\ (forall i c, nth_error (sys_version w) i = Some c -> c <> LF ->
          nth_error (detail py) i = Some c).
Proof.
  destruct (result_inv _ _ _ _ Hrun) as [t' Hrun'].
  destruct (run_inv_full w t t' report Hrun')
    as (no & mo & po & gpu & env & summary & t4 & _ & _ & _ & _ & _ & -> & _).
  eexists. split; [reflexivity|]. cbn [status detail].
  split; [reflexivity|].
  destruct (replace_char_spec LF SPACE (sys_version w)) as [Hno Hlen];
    [discriminate|].
  split; [exact Hno|]. split; [exact Hlen|]. split.
  - intros i Hi. unfold replace_char. rewrite nth_error_map, Hi. reflexivity.
  - intros i c Hi Hc. unfold replace_char. rewrite nth_error_map, Hi. cbn.
    apply N.eqb_neq in Hc. rewrite Hc. reflexivity.
Qed.

Lemma python_detail_has_no_line_feed_witness :
  result run_env_diagnostics world_plain [] = Ok report_plain
  /\ In LF (sys_version world_plain)
  /\ nth_error (sys_version world_plain) 13 = Some LF
  /\ exists py,
       dict_get report_plain (lit "python") = Some py
       /\ status py = OK
       /\ ~ In LF (detail py)
       /\ nth_error (detail py) 13 = Some SPACE.
Proof.
  split; [reflexivity|]. split; [vm_compute; tauto|]. split; [reflexivity|].
  destruct (python_detail_has_no_line_feed world_plain [] report_plain eq_refl)
    as (py & Hpy & Hst & Hno & _ & Hsp & _).
  exists py. split; [exact Hpy|]. split; [exact Hst|]. split; [exact Hno|].
  apply Hsp. reflexivity.
Defined.

(** ** Trimmed output *)

Lemma lstrip_head (s : str) :
  lstrip s = [] \/ exists c r, lstrip s = c :: r /\ isspace c = false.
Proof.
  induction s as [|c s IH]; [left; reflexivity|].
  cbn [lstrip]. destruct (isspace c) eqn:E; [exact IH|].
  right. exists c, s. split; [reflexivity | exact E].
Qed.

Lemma lstrip_fixed (c : N) (r : str) : isspace c = false -> lstrip (c :: r) = c :: r.
Proof. intros H. cbn [lstrip]. rewrite H. reflexivity. Qed.

Lemma lstrip_idem (s : str) : lstrip (lstrip s) = lstrip s.
Proof.
  destruct (lstrip_head s) as [-> | (c & r & -> & Hc)]; [reflexivity|].
  apply lstrip_fixed. exact Hc.
Qed.

Lemma rstrip_idem (s : str) : rstrip (rstrip s) = rstrip s.
Proof. unfold rstrip. rewrite rev_involutive, lstrip_idem. reflexivity. Qed.

(** Trimming on the right leaves a first character that is not whitespace
    in place. *)
Lemma rstrip_keeps_head (c : N) (r : str) :
  isspace c = false -> exists r', rstrip (c :: r) = c :: r'.
Proof.
  intros Hc. destruct (rstrip_split (c :: r)) as (tail & Heq & _).
  destruct (rstrip (c :: r)) as [|c' r'] eqn:E.
  - apply rstrip_nil in E. cbn [forallb] in E. rewrite Hc in E. discriminate.
  - cbn [app] in Heq. injection Heq as <- _. eauto.
Qed.

Lemma strip_idem (s : str) : strip (strip s) = strip s.
Proof.
  unfold strip.
  destruct (lstrip_head s) as [-> | (c & r & -> & Hc)]; [reflexivity|].
  destruct (rstrip_keeps_head c r Hc) as [r' E].
  rewrite E, (lstrip_fixed c r' Hc), <- E. apply rstrip_idem.
Qed.

Lemma strip_nil (s : str) : strip s = [] <-> forallb isspace s = true.
Proof.
  unfold strip. rewrite <- lstrip_nil.
  destruct (lstrip_head s) as [E | (c & r & E & Hc)]; rewrite E.
  - split; reflexivity.
  - destruct (rstrip_keeps_head c r Hc) as [r' ->]. split; discriminate.
Qed.

(** X6.  For a command that ran and exited, the runner's text is trimmed on
    both ends (trimming it again changes nothing); it is the trimmed standard
    output unless that is blank, and then the trimmed standard error; the
    flag says whether the exit status is zero. *)
Theorem run_command_output_is_trimmed
        (w : World) (t : Trace) (cmd : list str) (p : CompletedProcess)
        (Hexit : spawn w cmd = Exited p) :
  exists out,
    result (_run_command cmd) w t = Ok ((returncode p =? 0)%Z, out)
    /\ strip out = out
    /\ (forallb isspace (stdout p) = false -> out = strip (stdout p))
    /\ (forallb isspace (stdout p) = true -> out = strip (stderr p))
    /\ (out = [] <->
        forallb isspace (stdout p) = true /\ forallb isspace (stderr p) = true).
Proof.
  unfold result. rewrite run_command_eq, Hexit. cbn [fst].
  eexists. split; [reflexivity|].
  destruct (strip (stdout p)) as [|c r] eqn:E; cbn [str_or].
  - apply strip_nil in E. rewrite E.
    split; [apply strip_idem|]. split; [discriminate|]. split; [reflexivity|].
    rewrite strip_nil. tauto.
  - assert (Hns : forallb isspace (stdout p) = false).
    { destruct (forallb isspace (stdout p)) eqn:F; [|reflexivity].
      apply strip_nil in F. congruence. }
    rewrite Hns. split; [rewrite <- E; apply strip_idem|].
    split; [reflexivity|]. split; [discriminate|].
    split; [discriminate | intros [H _]; discriminate].
Qed.

Lemma run_command_output_is_trimmed_witness :
  spawn world_plain NODE_VERSION = exited 0 (lit "v1.0" ++ [LF])
  /\ exists out,
       result (_run_command NODE_VERSION) world_plain [] = Ok (true, out)
       /\ strip out = out.
Proof.
  split; [reflexivity|].
  destruct (run_command_output_is_trimmed
              world_plain [] NODE_VERSION
              {| returncode := 0; stdout := lit "v1.0" ++ [LF]; stderr := [] |}
              eq_refl) as (out & Hr & Hs & _).
  exists out. split; [exact Hr | exact Hs].
Defined.

(** ** The GPU probe without torch *)

(** X7.  When torch is not importable the probe's record follows
    [nvidia-smi] alone: OK with the tool's trimmed output when it exits with
    status zero; the one fixed WARN record when it exits with another status,
    is missing, times out or raises another caught fault; and a fault the
    runner does not catch leaves the probe. *)
Theorem gpu_fallback_follows_nvidia_smi
        (w : World) (t : Trace) (Habsent : find_spec w TORCH = Ok false) :
  (forall p, spawn w NVIDIA_SMI = Exited p -> returncode p = 0%Z ->
     result _detect_gpu_status w t
     = Ok {| status := OK;
             detail := lit "nvidia-smi 输出: "
                       ++ str_or (strip (stdout p)) (strip (stderr p)) |})
  /\ (command_handled w NVIDIA_SMI = true ->
      command_succeeds w NVIDIA_SMI = false ->
      result _detect_gpu_status w t
      = Ok {| status := WARN;
              detail := lit "未检测到 PyTorch 或 nvidia-smi，如需 GPU 请安装相关驱动。" |})
  /\ (forall e, spawn w NVIDIA_SMI = Faulted e ->
        caught_by [FileNotFoundError; SubprocessError] e = false ->
        result _detect_gpu_status w t = Raise e).
Proof.
  unfold result, _detect_gpu_status, bind, call. rewrite Habsent.
  rewrite run_command_eq. unfold command_handled, command_succeeds.
  split; [|split].
  - intros p -> Hrc. rewrite Hrc. reflexivity.
  - destruct (spawn w NVIDIA_SMI) as [p|msg|msg|e]; cbn [spawn_fault];
      intros Hh Hs; try reflexivity.
    + rewrite Hs. reflexivity.
    + rewrite Hh. reflexivity.
  - intros e -> Hc. rewrite Hc. reflexivity.
Qed.

Lemma gpu_fallback_follows_nvidia_smi_witness :
  find_spec world_plain TORCH = Ok false
  /\ command_handled world_plain NVIDIA_SMI = true
  /\ command_succeeds world_plain NVIDIA_SMI = false
  /\ result _detect_gpu_status world_plain []
     = Ok {| status := WARN;
             detail := lit "未检测到 PyTorch 或 nvidia-smi，如需 GPU 请安装相关驱动。" |}.
Proof.
  split; [reflexivity|]. split; [reflexivity|]. split; [reflexivity|].
  apply (proj1 (proj2 (gpu_fallback_follows_nvidia_smi world_plain [] eq_refl)));
    reflexivity.
Defined.

(** ** Lines *)

(** A stretch without line boundaries that ends in a line feed is one
    line. *)
Lemma splitlines_go_line (l : str) : forall (cur rest : str),
  no_linebreak l = true ->
  splitlines_go false cur (l ++ LF :: rest)
  = (rev cur ++ l) :: splitlines_go false [] rest.
Proof.
  induction l as [|c l IH]; intros cur rest Hl.
  - cbn. rewrite app_nil_r. reflexivity.
  - cbn [no_linebreak forallb] in Hl. apply andb_true_iff in Hl.
    destruct Hl as [Hc Hl]. apply negb_true_iff in Hc.
    cbn [app splitlines_go andb]. rewrite Hc.
    rewrite (IH (c :: cur) rest Hl). cbn [rev]. rewrite <- app_assoc. reflexivity.
Qed.

(** A last stretch without line boundaries is one line, unless it is
    empty. *)
Lemma splitlines_go_last (l : str) : forall (cur : str),
  no_linebreak l = true ->
  splitlines_go false cur l
  = match rev cur ++ l with [] => [] | _ => [rev cur ++ l] end.
Proof.
  induction l as [|c l IH]; intros cur Hl.
  - cbn [splitlines_go]. rewrite app_nil_r.
    destruct cur as [|x cur]; [reflexivity|].
    destruct (rev (x :: cur)) eqn:E; [|reflexivity].
    apply (f_equal (@List.length N)) in E. rewrite length_rev in E. discriminate.
  - cbn [no_linebreak forallb] in Hl. apply andb_true_iff in Hl.
    destruct Hl as [Hc Hl]. apply negb_true_iff in Hc.
    cbn [splitlines_go andb]. rewrite Hc.
    rewrite (IH (c :: cur) Hl). cbn [rev]. rewrite <- app_assoc. reflexivity.
Qed.

Lemma splitlines_first_line (l rest : str) :
  no_linebreak l = true ->
  splitlines (l ++ LF :: rest) = l :: splitlines rest.
Proof. intros Hl. unfold splitlines. rewrite (splitlines_go_line l [] rest Hl). reflexivity. Qed.

(** ** The secrets file: byte order mark and Windows line ends *)

Lemma bom_line_is_no_key_line (first : str) :
  startswith KEY_PREFIX (strip (BOM :: first)) = false.
Proof.
  unfold strip. rewrite (lstrip_fixed BOM first eq_refl).
  destruct (rstrip_keeps_head BOM first eq_refl) as [r' ->]. reflexivity.
Qed.

(** X8.  A byte order mark at the start of [.env] hides the first line from
    the probe: whatever that line holds, also a well-formed key line, the
    status is decided by the remaining lines, and is WARN when there are
    none. *)
Theorem bom_hides_first_line
        (cfg : HeartLinkConfig) (w : World) (t : Trace) (first rest : str)
        (Hexists : path_exists w (env_path cfg) = Ok true)
        (Hfirst : no_linebreak first = true) :
  (path_read_text w (env_path cfg) = Ok (BOM :: first ++ LF :: rest) ->
   exists r, result (_check_env_file cfg) w t = Ok r
             /\ status r = spec_env_status rest)
  /\ (path_read_text w (env_path cfg) = Ok (BOM :: first) ->
      exists r, result (_check_env_file cfg) w t = Ok r /\ status r = WARN).
Proof.
  assert (Hb : no_linebreak (BOM :: first) = true) by exact Hfirst.
  split; intros Hread;
    destruct (env_probe_scanned cfg w t _ Hexists Hread) as (r & Hr & Hs);
    exists r; (split; [exact Hr|]); rewrite Hs; unfold spec_env_status.
  - change (BOM :: first ++ LF :: rest) with ((BOM :: first) ++ LF :: rest).
    rewrite (splitlines_first_line _ rest Hb). cbn [find].
    rewrite bom_line_is_no_key_line. reflexivity.
  - unfold splitlines. rewrite (splitlines_go_last _ [] Hb). cbn [rev app find].
    rewrite bom_line_is_no_key_line. reflexivity.
Qed.

Lemma bom_hides_first_line_witness :
  path_exists (world_with_env (Ok (BOM :: lit "OPENAI_API_KEY=abc123")))
              (env_path the_config) = Ok true
  /\ no_linebreak (lit "OPENAI_API_KEY=abc123") = true
  /\ exists r,
       result (_check_env_file the_config)
              (world_with_env (Ok (BOM :: lit "OPENAI_API_KEY=abc123"))) [] = Ok r
       /\ status r = WARN.
Proof.
  split; [reflexivity|]. split; [reflexivity|].
  apply (proj2 (bom_hides_first_line
                  the_config (world_with_env (Ok (BOM :: lit "OPENAI_API_KEY=abc123")))
                  [] (lit "OPENAI_API_KEY=abc123") [] eq_refl eq_refl)).
  reflexivity.
Defined.

Lemma splitlines_go_crlf (s : str) : forall cur,
  ~ In CR s ->
  splitlines_go false cur (crlf s) = splitlines_go false cur s.
Proof.
  induction s as [|c s IH]; intros cur Hcr; [reflexivity|].
  assert (Hc : c <> CR) by (intros ->; apply Hcr; left; reflexivity).
  assert (Hs : ~ In CR s) by (intros H; apply Hcr; right; exact H).
  unfold crlf. cbn [flat_map]. fold (crlf s).
  destruct (c =? LF)%N eqn:E.
  - apply N.eqb_eq in E. subst c. cbn. apply f_equal. apply IH. exact Hs.
  - cbn [app splitlines_go andb].
    apply N.eqb_neq in Hc. rewrite Hc.
    destruct (islinebreak c); [apply f_equal|]; apply IH; exact Hs.
Qed.

(** X9.  Windows line ends do not change the verdict: a [.env] whose lines
    end in CR LF gets the status the same text with bare line feeds gets. *)
Theorem crlf_env_file_same_status
        (cfg : HeartLinkConfig) (w : World) (t : Trace) (content : str)
        (Hexists : path_exists w (env_path cfg) = Ok true)
        (Hread : path_read_text w (env_path cfg) = Ok (crlf content))
        (Hcr : ~ In CR content) :
  splitlines (crlf content) = splitlines content
  /\ exists r,
       result (_check_env_file cfg) w t = Ok r
       /\ status r = spec_env_status content.
Proof.
  assert (Hl : splitlines (crlf content) = splitlines content)
    by (apply splitlines_go_crlf; exact Hcr).
  split; [exact Hl|].
  destruct (env_probe_scanned cfg w t _ Hexists Hread) as (r & Hr & Hs).
  exists r. split; [exact Hr|]. rewrite Hs.
  unfold spec_env_status. rewrite Hl. reflexivity.
Qed.

Lemma crlf_env_file_same_status_witness :
  crlf (lit "A=1" ++ [LF] ++ lit "OPENAI_API_KEY=abc" ++ [LF])
  = lit "A=1" ++ [CR; LF] ++ lit "OPENAI_API_KEY=abc" ++ [CR; LF]
  /\ exists r,
       result (_check_env_file the_config)
              (world_with_env
                 (Ok (lit "A=1" ++ [CR; LF] ++ lit "OPENAI_API_KEY=abc" ++ [CR; LF]))) []
       = Ok r
       /\ status r = OK.
Proof.
  split; [reflexivity|].
  destruct (crlf_env_file_same_status
              the_config
              (world_with_env
                 (Ok (lit "A=1" ++ [CR; LF] ++ lit "OPENAI_API_KEY=abc" ++ [CR; LF])))
              [] (lit "A=1" ++ [LF] ++ lit "OPENAI_API_KEY=abc" ++ [LF])
              eq_refl eq_refl) as (_ & r & Hr & Hs).
  - vm_compute. intros H.
    repeat (destruct H as [H|H]; [discriminate|]). exact H.
  - exists r. split; [exact Hr | exact Hs].
Defined.

(** ** The plain-text report *)

Lemma no_linebreak_app (a b : str) :
  no_linebreak (a ++ b) = no_linebreak a && no_linebreak b.
Proof. apply forallb_app. Qed.

Lemma join_cons (sep p q : str) (rest : list str) :
  join sep (p :: q :: rest) = p ++ sep ++ join sep (q :: rest).
Proof. reflexivity. Qed.

(** Joining lines with line feeds and splitting again gives the lines back,
    with or without a final line feed, as long as no line holds a boundary
    (and, without the final line feed, the last line is not empty). *)
Lemma splitlines_joined (rest : list str) : forall p,
  (forall l, In l (p :: rest) -> no_linebreak l = true) ->
  splitlines (join [LF] (p :: rest) ++ [LF]) = p :: rest
  /\ (last (p :: rest) [] <> [] -> splitlines (join [LF] (p :: rest)) = p :: rest).
Proof.
  induction rest as [|q rest IH]; intros p Hall.
  - assert (Hp : no_linebreak p = true) by (apply Hall; left; reflexivity).
    cbn [join last]. split.
    + rewrite (splitlines_first_line p [] Hp). reflexivity.
    + intros Hne. unfold splitlines. rewrite (splitlines_go_last p [] Hp).
      cbn [rev app]. destruct p; [congruence | reflexivity].
  - assert (Hp : no_linebreak p = true) by (apply Hall; left; reflexivity).
    destruct (IH q) as [IH1 IH2]; [intros l Hl; apply Hall; right; exact Hl|].
    rewrite join_cons. cbn [app]. rewrite <- app_assoc. cbn [app].
    split.
    + rewrite (splitlines_first_line p _ Hp), IH1. reflexivity.
    + intros Hne. change (p ++ LF :: join [LF] (q :: rest))
        with (p ++ LF :: join [LF] (q :: rest)).
      rewrite (splitlines_first_line p _ Hp), IH2; [reflexivity|exact Hne].
Qed.

Lemma report_lines_single (timestamp : str) (results : DiagnosticResult) :
  no_linebreak timestamp = true ->
  single_line_records results = true ->
  forall l, In l (report_lines timestamp results) -> no_linebreak l = true.
Proof.
  intros Hts Hres l Hl. unfold report_lines in Hl.
  cbn [app In] in Hl. destruct Hl as [<-|[<-|[<-|Hl]]]; try reflexivity.
  - rewrite no_linebreak_app, Hts. reflexivity.
  - apply in_map_iff in Hl. destruct Hl as ([name d] & <- & Hin).
    unfold single_line_records in Hres. rewrite forallb_forall in Hres.
    specialize (Hres _ Hin). cbn [fst snd] in Hres.
    apply andb_true_iff in Hres. destruct Hres as [Hres Hd].
    apply andb_true_iff in Hres. destruct Hres as [Hn Hs].
    unfold report_line. cbn [fst snd].
    rewrite !no_linebreak_app, Hn, Hs, Hd. reflexivity.
Qed.

Lemma report_lines_last (timestamp : str) (results : DiagnosticResult) :
  last (report_lines timestamp results) [] <> [].
Proof.
  unfold report_lines.
  destruct results as [|kv results] using rev_ind.
  - cbn. discriminate.
  - rewrite map_app, app_assoc. cbn [map]. rewrite last_last.
    unfold report_line. destruct (fst kv); cbn; discriminate.
Qed.

(** X10.  [format_report_lines] does nothing but build a text.  When neither
    the timestamp nor any name, status or detail holds a line boundary, the
    text splits back into its lines: the title, the timestamp line, the rule,
    then one line [name: [status] detail] per record in report order, so three
    lines more than there are records; appending the final line feed, as the
    report file does, gives the same lines. *)
Theorem report_text_splits_into_record_lines
        (h : Host) (log : list Action) (results : DiagnosticResult)
        (Hts : no_linebreak (now_text h) = true)
        (Hres : single_line_records results = true) :
  exists text,
    format_report_lines results h log = (Done text, log)
    /\ splitlines text = report_lines (now_text h) results
    /\ splitlines (text ++ [LF]) = report_lines (now_text h) results
    /\ List.length (splitlines text) = 3 + List.length results
    /\ (forall i name d, nth_error results i = Some (name, d) ->
          nth_error (splitlines text) (3 + i)
          = Some (name ++ lit ": [" ++ status d ++ lit "] " ++ detail d)).
Proof.
  exists (join [LF] (report_lines (now_text h) results)).
  split; [reflexivity|].
  pose proof (report_lines_single _ _ Hts Hres) as Hall.
  pose proof (report_lines_last (now_text h) results) as Hlast.
  remember (report_lines (now_text h) results) as lines eqn:El.
  destruct lines as [|p rest]; [discriminate|].
  destruct (splitlines_joined rest p Hall) as [H1 H2].
  rewrite (H2 Hlast), H1.
  split; [reflexivity|]. split; [reflexivity|].
  rewrite El. unfold report_lines. split.
  - cbn [app List.length]. rewrite length_map. reflexivity.
  - intros i name d Hi. cbn [app Nat.add nth_error].
    rewrite nth_error_map, Hi. reflexivity.
Qed.

Lemma report_text_splits_into_record_lines_witness :
  no_linebreak (now_text host_plain) = true
  /\ single_line_records report_plain = true
  /\ exists text,
       format_report_lines report_plain host_plain [] = (Done text, [])
       /\ List.length (splitlines text) = 11.
Proof.
  split; [reflexivity|]. split; [reflexivity|].
  destruct (report_text_splits_into_record_lines host_plain [] report_plain
              eq_refl eq_refl) as (text & Hf & _ & _ & Hlen & _).
  exists text. split; [exact Hf | exact Hlen].
Defined.

(** ** One environment check at the command line *)

Lemma display_results_ok (results : DiagnosticResult) :
  display_results results = Ok (colored_lines results).
Proof.
  induction results as [|[name d] rest IH]; [reflexivity|].
  rewrite display_results_cons, IH, color_lookup. reflexivity.
Qed.

Lemma print_all_eq (texts : list str) : forall (h : Host) (log : list Action),
  print_all texts h log = (Done tt, log ++ map Print texts).
Proof.
  induction texts as [|x texts IH]; intros h log.
  - cbn. rewrite app_nil_r. reflexivity.
  - cbn [print_all]. unfold cbind, print. rewrite IH.
    rewrite <- app_assoc. reflexivity.
Qed.

(** [run_environment_check], case by case on what the host answers. *)
Lemma run_environment_check_eq (h : Host) (log : list Action) :
  run_environment_check h log =
  match path_mkdir h (data_directory h) with
  | Raise e => (Failed e, log ++ [Mkdir (data_directory h)])
  | Ok _ =>
      match run_env_diagnostics (world h) [] with
      | (Raise e, tr) =>
          (Failed e, log ++ Mkdir (data_directory h) :: map Probe tr)
      | (Ok results, tr) =>
          match path_write_text h (report_path h) (report_file_text h results) with
          | Raise e =>
              (Failed e,
               log ++ Mkdir (data_directory h) :: map Probe tr
                   ++ map Print (colored_lines results)
                   ++ [WriteText (report_path h) (report_file_text h results)])
          | Ok _ =>
              (Done tt,
               log ++ Mkdir (data_directory h) :: map Probe tr
                   ++ map Print (colored_lines results)
                   ++ [WriteText (report_path h) (report_file_text h results);
                       Print (REPORT_SAVED ++ report_path h)])
          end
      end
  end.
Proof.
  unfold run_environment_check, ensure_data_directory, cbind, act, cret, engine,
    display_results_io, format_report_lines, print.
  fold (data_directory h). fold (report_path h).
  destruct (path_mkdir h (data_directory h)) as [[]|e]; [|reflexivity].
  destruct (run_env_diagnostics (world h) []) as [[results|e] tr].
  - rewrite display_results_ok, print_all_eq. unfold cret, report_file_text.
    cbv beta iota.
    destruct (path_write_text h (report_path h)
                (join [LF] (report_lines (now_text h) results) ++ [LF]))
      as [[]|e]; rewrite <- !app_assoc; reflexivity.
  - rewrite <- app_assoc. reflexivity.
Qed.

(** X11.  A check that cannot go on leaves no output behind.  If the data
    directory cannot be made, the fault ends the check at once: no probe
    runs.  If the engine raises, the fault ends the check after the probes:
    nothing is printed and nothing is written. *)
Theorem failed_check_leaves_no_output (h : Host) (log : list Action) :
  (forall e, path_mkdir h (data_directory h) = Raise e ->
     outcome run_environment_check h log = Failed e
     /\ actions run_environment_check h log = log ++ [Mkdir (data_directory h)])
  /\ (forall e, path_mkdir h (data_directory h) = Ok tt ->
        result run_env_diagnostics (world h) [] = Raise e ->
        outcome run_environment_check h log = Failed e
        /\ exists new,
             actions run_environment_check h log = log ++ new
             /\ filter is_print new = []
             /\ filter is_write new = []).
Proof.
  unfold outcome, actions. rewrite run_environment_check_eq.
  split.
  - intros e ->. split; reflexivity.
  - intros e -> Hrun. unfold result in Hrun.
    destruct (run_env_diagnostics (world h) []) as [r tr]. cbn [fst] in Hrun.
    subst r. cbn [fst snd]. split; [reflexivity|].
    eexists. split; [reflexivity|].
    cbn [filter is_print is_write].
    split; induction tr as [|ev tr IH]; cbn; auto.
Qed.

Lemma failed_check_leaves_no_output_witness :
  (path_mkdir host_readonly (data_directory host_readonly)
     = Raise {| exn_class := PermissionError; exn_str := lit "[Errno 13]" |}
   /\ actions run_environment_check host_readonly []
      = [Mkdir (lit "/srv/heartlink/data")])
  /\ (path_mkdir host_node_denied (data_directory host_node_denied) = Ok tt
      /\ outcome run_environment_check host_node_denied []
         = Failed {| exn_class := PermissionError;
                     exn_str := lit "[Errno 13] Permission denied: 'node'" |}).
Proof.
  split; (split; [reflexivity|]).
  - apply (proj1 (failed_check_leaves_no_output host_readonly [])
             {| exn_class := PermissionError; exn_str := lit "[Errno 13]" |}).
    reflexivity.
  - apply (proj2 (failed_check_leaves_no_output host_node_denied [])
             {| exn_class := PermissionError;
                exn_str := lit "[Errno 13] Permission denied: 'node'" |});
      reflexivity.
Defined.

(** X12.  A check that returns has gone the whole way, in this order: the
    directory was made, the engine returned a report, one coloured line was
    printed per record, the report file took the plain-text report of the
    very records shown on screen plus one line feed, the write succeeded, and
    the line that names the file came last. *)
Theorem check_prints_then_saves
        (h : Host) (log : list Action)
        (Hdone : outcome run_environment_check h log = Done tt) :
  exists results,
    path_mkdir h (data_directory h) = Ok tt
    /\ result run_env_diagnostics (world h) [] = Ok results
    /\ display_results results = Ok (colored_lines results)
    /\ path_write_text h (report_path h) (report_file_text h results) = Ok tt
    /\ report_file_text h results
       = join [LF] (report_lines (now_text h) results) ++ [LF]
    /\ actions run_environment_check h log
       = log ++ Mkdir (data_directory h)
             :: map Probe (events run_env_diagnostics (world h) [])
             ++ map Print (colored_lines results)
             ++ [WriteText (report_path h) (report_file_text h results);
                 Print (REPORT_SAVED ++ report_path h)]
    /\ List.length (colored_lines results) = List.length results.
Proof.
  revert Hdone. unfold outcome, actions, events, result.
  rewrite run_environment_check_eq.
  destruct (path_mkdir h (data_directory h)) as [[]|e]; [|discriminate].
  destruct (run_env_diagnostics (world h) []) as [[results|e] tr]; [|discriminate].
  destruct (path_write_text h (report_path h) (report_file_text h results))
    as [[]|e] eqn:Hw; [|discriminate].
  intros _. exists results. cbn [fst snd].
  split; [reflexivity|]. split; [reflexivity|].
  split; [apply display_results_ok|]. split; [exact Hw|].
  split; [reflexivity|]. split; [reflexivity|].
  unfold colored_lines. apply length_map.
Qed.

Lemma check_prints_then_saves_witness :
  outcome run_environment_check host_plain [] = Done tt
  /\ exists results,
       result run_env_diagnostics (world host_plain) [] = Ok results
       /\ actions run_environment_check host_plain []
          = [] ++ Mkdir (data_directory host_plain)
               :: map Probe (events run_env_diagnostics (world host_plain) [])
               ++ map Print (colored_lines results)
               ++ [WriteText (report_path host_plain)
                             (report_file_text host_plain results);
                   Print (REPORT_SAVED ++ report_path host_plain)]
       /\ List.length (colored_lines results) = List.length results.
Proof.
  split; [reflexivity|].
  destruct (check_prints_then_saves host_plain [] eq_refl)
    as (results & _ & Hrun & _ & _ & _ & Hact & Hlen).
  exists results. split; [exact Hrun|]. split; [exact Hact | exact Hlen].
Defined.

(** ** The menu *)

Lemma menu_nil (h : Host) (log : list Action) :
  interactive_menu [] h log
  = (EndOfInput, log ++ [Print MENU_BANNER; Prompt MENU_PROMPT]).
Proof.
  cbn [interactive_menu]. unfold cbind, print. rewrite <- app_assoc. reflexivity.
Qed.

Lemma menu_cons (line : str) (rest : list str) (h : Host) (log : list Action) :
  interactive_menu (line :: rest) h log
  = if chooses "1" line then
      match run_environment_check h (log ++ [Print MENU_BANNER; Prompt MENU_PROMPT]) with
      | (Done _, log') => interactive_menu rest h log'
      | (Failed e, log') => (Failed e, log')
      | (EndOfInput, log') => (EndOfInput, log')
      end
    else if chooses "2" line then
      (Done tt, log ++ [Print MENU_BANNER; Prompt MENU_PROMPT; Print FAREWELL])
    else
      interactive_menu rest h
        (log ++ [Print MENU_BANNER; Prompt MENU_PROMPT; Print INVALID_CHOICE]).
Proof.
  cbn [interactive_menu]. unfold cbind, print, chooses.
  rewrite <- app_assoc. cbn [app].
  destruct (PyStr.eqb (strip line) (lit "1")); [reflexivity|].
  destruct (PyStr.eqb (strip line) (lit "2")); rewrite <- app_assoc; reflexivity.
Qed.

(** The check does not look at what was done before it. *)
Lemma check_log_prefix (h : Host) (log : list Action) :
  run_environment_check h log
  = (outcome run_environment_check h [], log ++ actions run_environment_check h []).
Proof.
  unfold outcome, actions. rewrite !run_environment_check_eq.
  destruct (path_mkdir h (data_directory h)) as [[]|e]; [|reflexivity].
  destruct (run_env_diagnostics (world h) []) as [[results|e] tr]; [|reflexivity].
  destruct (path_write_text h (report_path h) (report_file_text h results));
    reflexivity.
Qed.

Lemma count_app (f : Action -> bool) (a b : list Action) :
  count_actions f (a ++ b) = count_actions f a + count_actions f b.
Proof. unfold count_actions. rewrite filter_app, length_app. reflexivity. Qed.

Lemma count_none (f : Action -> bool) {A} (g : A -> Action) (l : list A) :
  (forall x, f (g x) = false) -> count_actions f (map g l) = 0.
Proof.
  intros H. unfold count_actions. induction l as [|x l IH]; [reflexivity|].
  cbn [map filter]. rewrite H. exact IH.
Qed.

(** A check that returns has made the directory once, written once, and
    asked nothing. *)
Lemma check_counts (h : Host) :
  outcome run_environment_check h [] = Done tt ->
  count_actions is_prompt (actions run_environment_check h []) = 0
  /\ count_actions is_mkdir (actions run_environment_check h []) = 1
  /\ count_actions is_write (actions run_environment_check h []) = 1.
Proof.
  unfold outcome, actions. rewrite run_environment_check_eq.
  destruct (path_mkdir h (data_directory h)) as [[]|e]; [|discriminate].
  destruct (run_env_diagnostics (world h) []) as [[results|e] tr]; [|discriminate].
  destruct (path_write_text h (report_path h) (report_file_text h results));
    [|discriminate].
  intros _. cbn [fst snd app].
  change (Mkdir (data_directory h)
            :: map Probe tr ++ map Print (colored_lines results)
               ++ [WriteText (report_path h) (report_file_text h results);
                   Print (REPORT_SAVED ++ report_path h)])
    with ([Mkdir (data_directory h)]
            ++ map Probe tr ++ map Print (colored_lines results)
               ++ [WriteText (report_path h) (report_file_text h results);
                   Print (REPORT_SAVED ++ report_path h)]).
  rewrite !count_app.
  rewrite !(count_none _ Probe tr), !(count_none _ Print (colored_lines results));
    try (intros; reflexivity).
  repeat split; reflexivity.
Qed.

Lemma chooses_exclusive (line : str) :
  chooses "1" line = true -> chooses "2" line = false.
Proof.
  unfold chooses. intros H. apply eqb_eq in H. rewrite H. reflexivity.
Qed.

Lemma menu_run (h : Host) (Hcheck : outcome run_environment_check h [] = Done tt)
      (stdin : list str) : forall log,
  exists new,
    interactive_menu stdin h log
    = (if existsb (chooses "2") stdin then Done tt else EndOfInput, log ++ new)
    /\ count_actions is_prompt new = S (List.length (before_quit stdin))
    /\ count_actions is_mkdir new
       = List.length (filter (chooses "1") (before_quit stdin))
    /\ count_actions is_write new
       = List.length (filter (chooses "1") (before_quit stdin)).
Proof.
  destruct (check_counts h Hcheck) as (Cp & Cm & Cw).
  induction stdin as [|line rest IH]; intros log.
  - rewrite menu_nil. eexists. split; [reflexivity|]. repeat split; reflexivity.
  - rewrite menu_cons. cbn [existsb before_quit].
    destruct (chooses "1" line) eqn:E1.
    + rewrite (chooses_exclusive line E1). cbn [orb filter]. rewrite E1.
      rewrite check_log_prefix, Hcheck.
      destruct (IH ((log ++ [Print MENU_BANNER; Prompt MENU_PROMPT])
                      ++ actions run_environment_check h []))
        as (new & -> & Np & Nm & Nw).
      exists ([Print MENU_BANNER; Prompt MENU_PROMPT]
                ++ actions run_environment_check h [] ++ new).
      split; [rewrite <- !app_assoc; reflexivity|].
      rewrite !count_app, Cp, Cm, Cw, Np, Nm, Nw. cbn [List.length].
      repeat split; reflexivity.
    + destruct (chooses "2" line) eqn:E2; cbn [orb].
      * eexists. split; [reflexivity|]. repeat split; reflexivity.
      * cbn [filter]. rewrite E1.
        destruct (IH (log ++ [Print MENU_BANNER; Prompt MENU_PROMPT;
                              Print INVALID_CHOICE]))
          as (new & -> & Np & Nm & Nw).
        exists ([Print MENU_BANNER; Prompt MENU_PROMPT; Print INVALID_CHOICE] ++ new).
        split; [rewrite <- !app_assoc; reflexivity|].
        rewrite !count_app, Np, Nm, Nw. cbn [List.length].
        repeat split; reflexivity.
Qed.

(** X13.  On a host where the check succeeds, the menu asks once per line
    typed up to and including the first line that chooses 2 (once more, in
    vain, when no line does) and runs one check, with one directory and one
    report file written, for each line before it that chooses 1; a choice
    counts after trimming.  The menu returns when a line chooses 2 and ends
    with the end of the input otherwise. *)
Theorem menu_reads_until_quit
        (h : Host) (log : list Action) (stdin : list str)
        (Hcheck : outcome run_environment_check h [] = Done tt) :
  outcome (interactive_menu stdin) h log
  = (if existsb (chooses "2") stdin then Done tt else EndOfInput)
  /\ exists new,
       actions (interactive_menu stdin) h log = log ++ new
       /\ count_actions is_prompt new = S (List.length (before_quit stdin))
       /\ count_actions is_mkdir new
          = List.length (filter (chooses "1") (before_quit stdin))
       /\ count_actions is_write new
          = List.length (filter (chooses "1") (before_quit stdin)).
Proof.
  destruct (menu_run h Hcheck stdin log) as (new & Heq & Hc).
  unfold outcome, actions. rewrite Heq. cbn [fst snd].
  split; [reflexivity|]. exists new. split; [reflexivity | exact Hc].
Qed.

Lemma menu_reads_until_quit_witness :
  outcome run_environment_check host_plain [] = Done tt
  /\ outcome (interactive_menu [lit "x"; lit " 1 "; lit "2"; lit "1"]) host_plain []
     = Done tt
  /\ exists new,
       actions (interactive_menu [lit "x"; lit " 1 "; lit "2"; lit "1"]) host_plain []
       = [] ++ new
       /\ count_actions is_prompt new = 3
       /\ count_actions is_mkdir new = 1
       /\ count_actions is_write new = 1.
Proof.
  split; [reflexivity|].
  apply (menu_reads_until_quit host_plain []
           [lit "x"; lit " 1 "; lit "2"; lit "1"]).
  reflexivity.
Defined.

(** X14.  What is typed after the first line that chooses 2 is never read:
    the menu behaves as if the input ended there. *)
Theorem menu_ignores_input_after_quit
        (h : Host) (pre : list str) (quit : str) (rest : list str)
        (Hquit : chooses "2" quit = true) :
  forall log,
    interactive_menu (pre ++ quit :: rest) h log
    = interactive_menu (pre ++ [quit]) h log.
Proof.
  assert (H1 : chooses "1" quit = false).
  { destruct (chooses "1" quit) eqn:E; [|reflexivity].
    apply chooses_exclusive in E. congruence. }
  induction pre as [|line pre IH]; intros log; cbn [app]; rewrite !menu_cons.
  - rewrite H1, Hquit. reflexivity.
  - destruct (chooses "1" line).
    + destruct (run_environment_check h _) as [[[]|e|] log']; try reflexivity.
      apply IH.
    + destruct (chooses "2" line); [reflexivity | apply IH].
Qed.

Lemma menu_ignores_input_after_quit_witness :
  chooses "2" (lit " 2") = true
  /\ interactive_menu ([lit "1"] ++ lit " 2" :: [lit "1"; lit "1"]) host_plain []
     = interactive_menu ([lit "1"] ++ [lit " 2"]) host_plain [].
Proof.
  split; [reflexivity|].
  apply (menu_ignores_input_after_quit host_plain [lit "1"] (lit " 2")
           [lit "1"; lit "1"]).
  reflexivity.
Defined.

(** X15.  As long as no line chooses 1, the menu only prints and asks: it
    runs no probe, makes no directory and writes no file, whatever else is
    typed. *)
Theorem menu_without_check_stays_at_terminal
        (h : Host) (stdin : list str)
        (Hno : forallb (fun line => negb (chooses "1" line)) stdin = true) :
  forall log,
    exists new,
      interactive_menu stdin h log
      = (if existsb (chooses "2") stdin then Done tt else EndOfInput, log ++ new)
      /\ forallb is_terminal new = true.
Proof.
  induction stdin as [|line rest IH]; intros log.
  - rewrite menu_nil. eexists. split; reflexivity.
  - cbn [forallb] in Hno. apply andb_true_iff in Hno. destruct Hno as [H1 Hno].
    apply negb_true_iff in H1. rewrite menu_cons, H1. cbn [existsb].
    destruct (chooses "2" line); cbn [orb].
    + eexists. split; reflexivity.
    + destruct (IH Hno (log ++ [Print MENU_BANNER; Prompt MENU_PROMPT;
                                 Print INVALID_CHOICE])) as (new & -> & Hnew).
      exists ([Print MENU_BANNER; Prompt MENU_PROMPT; Print INVALID_CHOICE] ++ new).
      split; [rewrite <- app_assoc; reflexivity|].
      cbn [app forallb is_terminal is_print is_prompt orb andb]. exact Hnew.
Qed.

Lemma menu_without_check_stays_at_terminal_witness :
  forallb (fun line => negb (chooses "1" line)) [lit "one"; lit "11"; lit "2"] = true
  /\ exists new,
       interactive_menu [lit "one"; lit "11"; lit "2"] host_readonly []
       = (Done tt, [] ++ new)
       /\ forallb is_terminal new = true.
Proof.
  split; [reflexivity|].
  apply (menu_without_check_stays_at_terminal host_readonly
           [lit "one"; lit "11"; lit "2"] eq_refl []).
Defined.

(** X16.  A check that fails ends the menu with its fault: once a line
    chooses 1 on a host where the check fails, nothing more is asked. *)
Theorem menu_aborts_on_failed_check
        (h : Host) (e : exn) (pre : list str) (one : str) (rest : list str)
        (Hpre : forallb (fun line => negb (chooses "1" line) && negb (chooses "2" line))
                        pre = true)
        (Hone : chooses "1" one = true)
        (Hcheck : outcome run_environment_check h [] = Failed e) :
  forall log,
    outcome (interactive_menu (pre ++ one :: rest)) h log = Failed e
    /\ exists new,
         actions (interactive_menu (pre ++ one :: rest)) h log = log ++ new
         /\ count_actions is_prompt new = S (List.length pre).
Proof.
  assert (Cp : count_actions is_prompt (actions run_environment_check h []) = 0).
  { revert Hcheck. unfold outcome, actions. rewrite run_environment_check_eq.
    destruct (path_mkdir h (data_directory h)) as [[]|e1]; [|reflexivity].
    destruct (run_env_diagnostics (world h) []) as [[results|e2] tr].
    - destruct (path_write_text h (report_path h) (report_file_text h results));
        [discriminate|].
      intros _. cbn [snd app].
      change (Mkdir (data_directory h)
                :: map Probe tr ++ map Print (colored_lines results)
                   ++ [WriteText (report_path h) (report_file_text h results)])
        with ([Mkdir (data_directory h)]
                ++ map Probe tr ++ map Print (colored_lines results)
                   ++ [WriteText (report_path h) (report_file_text h results)]).
      rewrite !count_app, (count_none _ Probe tr),
        (count_none _ Print (colored_lines results)); try (intros; reflexivity).
    - intros _. cbn [snd app].
      change (Mkdir (data_directory h) :: map Probe tr)
        with ([Mkdir (data_directory h)] ++ map Probe tr).
      rewrite count_app, (count_none _ Probe tr); try (intros; reflexivity). }
  unfold outcome, actions.
  induction pre as [|line pre IH]; intros log; cbn [app]; rewrite menu_cons.
  - rewrite Hone, check_log_prefix, Hcheck. cbn [fst snd].
    split; [reflexivity|]. eexists. split; [rewrite <- app_assoc; reflexivity|].
    rewrite count_app, Cp. reflexivity.
  - cbn [forallb] in Hpre. apply andb_true_iff in Hpre. destruct Hpre as [Hl Hpre].
    apply andb_true_iff in Hl. destruct Hl as [H1 H2].
    apply negb_true_iff in H1. apply negb_true_iff in H2. rewrite H1, H2.
    destruct (IH Hpre (log ++ [Print MENU_BANNER; Prompt MENU_PROMPT;
                                Print INVALID_CHOICE])) as (Ho & new & Ha & Hc).
    split; [exact Ho|].
    exists ([Print MENU_BANNER; Prompt MENU_PROMPT; Print INVALID_CHOICE] ++ new).
    split; [rewrite Ha, <- app_assoc; reflexivity|].
    rewrite count_app, Hc. reflexivity.
Qed.

Lemma menu_aborts_on_failed_check_witness :
  chooses "1" (lit "1 ") = true
  /\ outcome run_environment_check host_readonly []
     = Failed {| exn_class := PermissionError; exn_str := lit "[Errno 13]" |}
  /\ outcome (interactive_menu ([lit "?"] ++ lit "1 " :: [lit "2"])) host_readonly []
     = Failed {| exn_class := PermissionError; exn_str := lit "[Errno 13]" |}.
Proof.
  split; [reflexivity|]. split; [reflexivity|].
  apply (menu_aborts_on_failed_check
           host_readonly
           {| exn_class := PermissionError; exn_str := lit "[Errno 13]" |}
           [lit "?"] (lit "1 ") [lit "2"] eq_refl eq_refl eq_refl []).
Defined.
